(** * Lode read path: layout, manifest validation, checksum, iterators, store adapter

    A shallow embedding of the Go code of [internal/read] (layout.go,
    validate.go, iterator.go, adapter.go) and of [lode/checksum.go], followed by
    the properties the specification states about it.

    Go strings are byte sequences: they are modelled as [string] (a list of
    8-bit [ascii] characters).  Go's [int] and [int64] are modelled as [Z],
    with the two's-complement wrap-around of 64-bit arithmetic written out
    where the code does arithmetic on them. *)

From Stdlib Require Import ZArith NArith List Bool Ascii String Lia Arith.
From Stdlib Require Import Numbers.DecimalString.
Import ListNotations.

Open Scope string_scope.

(* ===================================================================== *)
(** * Part I: definitions                                                  *)
(* ===================================================================== *)

(** ** The pieces of the Go standard library the code calls *)

Module GoStrings.

(** [strings.Split(s, sep)] for a one-byte separator (every call in the
    code passes ["/"]): the substrings between the separators, so that a
    string with [n] separators yields [n+1] pieces and [""] yields [[""]]. *)
Fixpoint Split (s : string) (sep : ascii) : list string :=
  match s with
  | EmptyString => [EmptyString]
  | String c rest =>
      if Ascii.eqb c sep then EmptyString :: Split rest sep
      else match Split rest sep with
           | piece :: pieces => String c piece :: pieces
           | [] => [String c EmptyString]
           end
  end.

(** [strings.Join(elems, sep)]. *)
Fixpoint Join (elems : list string) (sep : string) : string :=
  match elems with
  | [] => ""
  | [e] => e
  | e :: rest => e ++ sep ++ Join rest sep
  end.

(** [strings.Contains(s, string(c))] for one byte. *)
Fixpoint ContainsByte (s : string) (c : ascii) : bool :=
  match s with
  | EmptyString => false
  | String x rest => Ascii.eqb x c || ContainsByte rest c
  end.

(** [strings.Count(s, string(c))] for one byte. *)
Fixpoint CountByte (s : string) (c : ascii) : nat :=
  match s with
  | EmptyString => O
  | String x rest => (if Ascii.eqb x c then 1 else 0) + CountByte rest c
  end.

End GoStrings.

Module GoPath.

Definition slash : ascii := "/"%char.

(** The write buffer of [path.Clean], on path elements: [out] holds the
    elements written so far, most recent first; [dotdot] counts the leading
    elements a [..] must not remove (a leading run of [..] elements). *)
Definition lazybuf : Type := (list string * nat)%type.

(** One turn of the loop of [path.Clean], on the next path element. *)
Definition clean_elem (rooted : bool) (buf : lazybuf) (e : string) : lazybuf :=
  let '(out, dotdot) := buf in
  if (e =? "")%string then buf                       (* empty path element *)
  else if (e =? ".")%string then buf                 (* . element *)
  else if (e =? "..")%string then                    (* .. element *)
    if (dotdot <? List.length out)%nat then (tl out, dotdot)      (* can backtrack *)
    else if negb rooted then (".." :: out, S (List.length out))   (* keep the .. *)
    else buf
  else (e :: out, dotdot).                           (* real path element *)

(** [path.Clean]: the shortest path equivalent to [p] by lexical
    processing. *)
Definition Clean (p : string) : string :=
  if (p =? "")%string then "."
  else
    let rooted := match p with
                  | String c _ => Ascii.eqb c slash
                  | EmptyString => false
                  end in
    let '(out, _) :=
      fold_left (clean_elem rooted) (GoStrings.Split p slash) ([], 0%nat) in
    let body := GoStrings.Join (rev out) "/" in
    if rooted then "/" ++ body
    else if (body =? "")%string then "."
    else body.

(** [path.Join]: empty elements are ignored, the rest joined with slashes and
    cleaned; no element at all gives the empty string. *)
Definition Join (elem : list string) : string :=
  let kept := filter (fun e => negb (e =? "")%string) elem in
  match kept with
  | [] => ""
  | _ => Clean (GoStrings.Join kept "/")
  end.

(** A plain path element: not empty, not [.] or [..], and without a
    slash. *)
Definition plain (e : string) : Prop :=
  e <> "" /\ e <> "." /\ e <> ".." /\ GoStrings.ContainsByte e slash = false.

End GoPath.

(** ** layout.go: DefaultLayout *)

Module Layout.

Definition DatasetID : Type := string.
Definition SnapshotID : Type := string.

Definition defaultDatasetsDir : string := "datasets".
Definition defaultSnapshotsDir : string := "snapshots".
Definition defaultManifestFile : string := "manifest.json".
Definition defaultDataDir : string := "data".

Definition DatasetsPrefix : string := defaultDatasetsDir ++ "/".

Definition SegmentsPrefix (dataset : DatasetID) : string :=
  GoPath.Join [defaultDatasetsDir; dataset; defaultSnapshotsDir] ++ "/".

Definition ManifestPath (dataset : DatasetID) (segment : SnapshotID) : string :=
  GoPath.Join [defaultDatasetsDir; dataset; defaultSnapshotsDir; segment;
               defaultManifestFile].

(** [parts[i]]; every use below is guarded by the length test, so the
    default is never returned. *)
Definition index (parts : list string) (i : nat) : string := nth i parts "".

Definition isValidManifestPath (p : string) : bool :=
  let parts := GoStrings.Split p GoPath.slash in
  if negb (List.length parts =? 5)%nat then false
  else (index parts 0 =? defaultDatasetsDir)%string
       && negb (index parts 1 =? "")%string
       && (index parts 2 =? defaultSnapshotsDir)%string
       && negb (index parts 3 =? "")%string
       && (index parts 4 =? defaultManifestFile)%string.

Definition IsManifest (p : string) : bool := isValidManifestPath p.

Definition ParseDatasetID (manifestPath : string) : DatasetID :=
  if negb (isValidManifestPath manifestPath) then ""
  else index (GoStrings.Split manifestPath GoPath.slash) 1.

Definition ParseSegmentID (manifestPath : string) : SnapshotID :=
  if negb (isValidManifestPath manifestPath) then ""
  else index (GoStrings.Split manifestPath GoPath.slash) 3.

(** The [for i, p := range parts] loop with its [break]: the index of the
    first component equal to ["data"], or [-1]; [i] is the index of the head
    of [parts]. *)
Fixpoint findDataIdx (parts : list string) (i : Z) : Z :=
  match parts with
  | [] => (-1)%Z
  | p :: rest =>
      if (p =? defaultDataDir)%string then i else findDataIdx rest (i + 1)%Z
  end.

(** The slice expression [parts[lo:hi]] for [0 <= lo <= hi <= len(parts)]. *)
Definition slice (parts : list string) (lo hi : Z) : list string :=
  firstn (Z.to_nat (hi - lo)) (skipn (Z.to_nat lo) parts).

Definition ExtractPartitionPath (filePath : string) : string :=
  let parts := GoStrings.Split filePath GoPath.slash in
  let dataIdx := findDataIdx parts 0 in
  let len := Z.of_nat (List.length parts) in
  if (dataIdx <? 0)%Z || (dataIdx >=? len - 1)%Z then ""
  else
    let partParts := slice parts (dataIdx + 1) (len - 1) in
    if (List.length partParts =? 0)%nat then ""
    else GoStrings.Join partParts "/".

(** Modelled from the spec: the validity of a dataset or snapshot ID, which
    the layout does not check.  The data model asks for a non-empty string
    with no path separator and no leading or trailing whitespace. *)
Definition isSpace (c : ascii) : bool :=
  let n := nat_of_ascii c in
  ((9 <=? n) && (n <=? 13) || (n =? 32))%nat.

Fixpoint lastByte (s : string) : option ascii :=
  match s with
  | EmptyString => None
  | String c EmptyString => Some c
  | String _ rest => lastByte rest
  end.

Definition validID (id : string) : bool :=
  match id with
  | EmptyString => false
  | String c _ =>
      negb (GoStrings.ContainsByte id GoPath.slash)
      && negb (isSpace c)
      && match lastByte id with
         | Some l => negb (isSpace l)
         | None => false
         end
  end.

(** The canonical data path of the layout,
    [datasets/<dataset>/snapshots/<snapshot>/data/[<partition>/]<file>]. *)
Definition dataPath (d s : string) (frag : list string) (f : string) : string :=
  "datasets/" ++ d ++ "/snapshots/" ++ s ++ "/data/"
    ++ match frag with
       | [] => f
       | _ => GoStrings.Join frag "/" ++ "/" ++ f
       end.

(** A path component other than the data directory. *)
Definition notData (c : string) : bool := negb (c =? defaultDataDir)%string.

End Layout.

(** ** Go values shared by the modules below *)

Module Go.

(** A slice: [nil], or a (possibly empty) sequence of elements. *)
Definition slice (A : Type) : Type := option (list A).

Definition elems {A} (s : slice A) : list A :=
  match s with
  | Some l => l
  | None => []
  end.

Definition len {A} (s : slice A) : Z := Z.of_nat (List.length (elems s)).

(** The result of a call that may end in a run-time panic. *)
Inductive outcome (A : Type) : Type :=
| Returns (a : A)
| Panics.
Arguments Returns {A} a.
Arguments Panics {A}.

(** The index expression [s[i]]: a panic when [i] is out of range. *)
Definition at_index {A} (s : slice A) (i : Z) : outcome A :=
  if (i <? 0)%Z || (i >=? len s)%Z then Panics
  else match nth_error (elems s) (Z.to_nat i) with
       | Some a => Returns a
       | None => Panics
       end.

(** The value of an [int] (64 bits, two's complement) after arithmetic. *)
Definition wrap_int (z : Z) : Z := ((z + 2 ^ 63) mod 2 ^ 64 - 2 ^ 63)%Z.

(** The verb [%d] of [fmt.Sprintf]. *)
Definition fmt_d (i : Z) : string := NilEmpty.string_of_int (Z.to_int i).

(** [time.Time], as the seconds since January 1, year 1, 00:00:00 UTC and
    the nanoseconds within the second. *)
Record Time : Type := { sec : Z; nsec : Z }.

Definition IsZero (t : Time) : bool := ((sec t =? 0) && (nsec t =? 0))%Z.

End Go.

(** ** Errors: the sentinels and validate.go's ManifestValidationError *)

Module Errors.

Record ManifestValidationError : Type :=
  { Field : string; Message : string }.

(** The error values of the read path.  A Go [error] that may be [nil] is an
    [option error].  [ErrRangeReadNotSupported] and [ErrNotFound] are
    sentinels like [ErrManifestInvalid], declared elsewhere in the packages
    [read] and [lode].
    [StoreError] stands for any error of an object store. *)
Inductive error : Type :=
| ErrManifestInvalid
| ErrRangeReadNotSupported
| ErrNotFound
| ValidationError (e : ManifestValidationError)
| StoreError (msg : string).

(** The [Error] method of [ManifestValidationError]. *)
Definition Error_ManifestValidationError (e : ManifestValidationError) : string :=
  "invalid manifest: " ++ Field e ++ ": " ++ Message e.

(** The [Unwrap] method, where the error has one. *)
Definition Unwrap (err : error) : option error :=
  match err with
  | ValidationError _ => Some ErrManifestInvalid
  | _ => None
  end.

Definition error_eqb (a b : error) : bool :=
  match a, b with
  | ErrManifestInvalid, ErrManifestInvalid => true
  | ErrRangeReadNotSupported, ErrRangeReadNotSupported => true
  | ErrNotFound, ErrNotFound => true
  | ValidationError x, ValidationError y =>
      (Field x =? Field y)%string && (Message x =? Message y)%string
  | StoreError x, StoreError y => (x =? y)%string
  | _, _ => false
  end.

(** The loop of [errors.Is]: compare, then follow [Unwrap]. *)
Fixpoint is_loop (fuel : nat) (err target : error) : bool :=
  match fuel with
  | O => false
  | S fuel' =>
      if error_eqb err target then true
      else match Unwrap err with
           | Some inner => is_loop fuel' inner target
           | None => false
           end
  end.

(** The number of errors on the [Unwrap] chain that starts at [err]. *)
Definition chain_length (err : error) : nat :=
  match err with
  | ValidationError _ => 2
  | _ => 1
  end.

(** [errors.Is(err, target)]. *)
Definition Is (err : option error) (target : error) : bool :=
  match err with
  | None => false
  | Some e => is_loop (chain_length e) e target
  end.

(** The loop of [errors.As] for a target that is a pointer to a
    [ManifestValidationError]. *)
Fixpoint as_loop (fuel : nat) (err : error) : option ManifestValidationError :=
  match fuel with
  | O => None
  | S fuel' =>
      match err with
      | ValidationError e => Some e
      | _ => match Unwrap err with
             | Some inner => as_loop fuel' inner
             | None => None
             end
      end
  end.

Definition As_ManifestValidationError (err : option error)
  : option ManifestValidationError :=
  match err with
  | None => None
  | Some e => as_loop (chain_length e) e
  end.

End Errors.

(** ** validate.go: ValidateManifest *)

Module Validate.
Import Go Errors.

(** Modelled from the spec: the types [lode.FileRef] and [lode.Manifest],
    whose declarations are missing here; the fields are those of the manifest
    of the data model, with the Go names the validator and its tests use. *)
Record FileRef : Type :=
  { Path : string; SizeBytes : Z; Checksum : string }.

Record Manifest : Type :=
  { SchemaName : string;
    FormatVersion : string;
    DatasetID : string;
    SnapshotID : string;
    ParentSnapshotID : string;
    CreatedAt : Time;
    Metadata : option (list (string * string));
    Files : slice FileRef;
    RowCount : Z;
    Codec : string;
    Compressor : string;
    Partitioner : string;
    MinTimestamp : option Time;
    MaxTimestamp : option Time }.

Definition invalid (field message : string) : option error :=
  Some (ValidationError {| Field := field; Message := message |}).

(** The loop [for i, f := range m.Files]; [i] is the index of the head of
    [files]. *)
Fixpoint validateFiles (files : list FileRef) (i : Z) : option error :=
  match files with
  | [] => None
  | f :: rest =>
      if (Path f =? "")%string then
        invalid ("files[" ++ fmt_d i ++ "].path") "is required"
      else if (SizeBytes f <? 0)%Z then
        invalid ("files[" ++ fmt_d i ++ "].size_bytes") "must be non-negative"
      else validateFiles rest (i + 1)%Z
  end.

(** [ValidateManifest(m *lode.Manifest) error]; [None] for the argument is
    the [nil] pointer, [None] for the result the [nil] error. *)
Definition ValidateManifest (m : option Manifest) : option error :=
  match m with
  | None => invalid "manifest" "is nil"
  | Some m =>
      if (SchemaName m =? "")%string then invalid "schema_name" "is required"
      else if (FormatVersion m =? "")%string then
        invalid "format_version" "is required"
      else if (DatasetID m =? "")%string then invalid "dataset_id" "is required"
      else if (SnapshotID m =? "")%string then invalid "snapshot_id" "is required"
      else if IsZero (CreatedAt m) then invalid "created_at" "is required"
      else match Metadata m with
      | None =>
          invalid "metadata" "must not be nil (use empty map for no metadata)"
      | Some _ =>
      match Files m with
      | None =>
          invalid "files" "must not be nil (use empty slice for no files)"
      | Some files =>
          if (RowCount m <? 0)%Z then invalid "row_count" "must be non-negative"
          else if (Codec m =? "")%string then invalid "codec" "is required"
          else if (Compressor m =? "")%string then
            invalid "compressor" "is required"
          else if (Partitioner m =? "")%string then
            invalid "partitioner" "is required"
          else validateFiles files 0
      end
      end
  end.

(** *** The required checks, as the specification lists them *)

(** A check: the canonical JSON name of the field, and whether the field
    passes. *)
Definition check : Type := (string * bool)%type.

Definition nonEmpty (s : string) : bool := negb (s =? "")%string.

Definition specFileChecks (i : Z) (f : FileRef) : list check :=
  [ ("files[" ++ fmt_d i ++ "].path", nonEmpty (Path f));
    ("files[" ++ fmt_d i ++ "].size_bytes", (0 <=? SizeBytes f)%Z) ].

Fixpoint specFilesChecks (files : list FileRef) (i : Z) : list check :=
  match files with
  | [] => []
  | f :: rest => specFileChecks i f ++ specFilesChecks rest (i + 1)%Z
  end.

(** The required checks in the order of the specification: manifest non-nil;
    schema_name, format_version, dataset_id, snapshot_id non-empty;
    created_at non-zero; metadata non-nil; files non-nil; row_count >= 0;
    codec, compressor, partitioner non-empty; then, for each file in order,
    path non-empty and size_bytes >= 0. *)
Definition specChecks (m : option Manifest) : list check :=
  match m with
  | None => [("manifest", false)]
  | Some m =>
      [ ("manifest", true);
        ("schema_name", nonEmpty (SchemaName m));
        ("format_version", nonEmpty (FormatVersion m));
        ("dataset_id", nonEmpty (DatasetID m));
        ("snapshot_id", nonEmpty (SnapshotID m));
        ("created_at", negb (IsZero (CreatedAt m)));
        ("metadata", match Metadata m with Some _ => true | None => false end);
        ("files", match Files m with Some _ => true | None => false end);
        ("row_count", (0 <=? RowCount m)%Z);
        ("codec", nonEmpty (Codec m));
        ("compressor", nonEmpty (Compressor m));
        ("partitioner", nonEmpty (Partitioner m)) ]
      ++ specFilesChecks (elems (Files m)) 0
  end.

(** The field of the first check that fails, if any. *)
Fixpoint firstFailure (checks : list check) : option string :=
  match checks with
  | [] => None
  | (field, ok) :: rest => if ok then firstFailure rest else Some field
  end.

(** The [Field] an error carries, when it is a validation error. *)
Definition fieldOf (err : option error) : option string :=
  option_map Field (As_ManifestValidationError err).

Definition passes (c : check) : Prop := snd c = true.

(** The results the validator can give: [nil], or a validation error. *)
Inductive validatorResult : option error -> Prop :=
| result_nil : validatorResult None
| result_invalid field message : validatorResult (invalid field message).

(** The [validManifest] of validate_test.go, at a fixed instant for
    [time.Now().UTC()]. *)
Definition validManifest : Manifest :=
  {| SchemaName := "lode-manifest";
     FormatVersion := "1.0.0";
     DatasetID := "test-dataset";
     SnapshotID := "snap-1";
     ParentSnapshotID := "";
     CreatedAt := {| sec := 63905702400; nsec := 0 |};
     Metadata := Some [];
     Files := Some [];
     RowCount := 0;
     Codec := "jsonl";
     Compressor := "noop";
     Partitioner := "noop";
     MinTimestamp := None;
     MaxTimestamp := None |}.

(** The assignments the tests make to a manifest before validating it. *)
Definition setCodec (m : Manifest) (codec : string) : Manifest :=
  {| SchemaName := SchemaName m; FormatVersion := FormatVersion m;
     DatasetID := DatasetID m; SnapshotID := SnapshotID m;
     ParentSnapshotID := ParentSnapshotID m; CreatedAt := CreatedAt m;
     Metadata := Metadata m; Files := Files m; RowCount := RowCount m;
     Codec := codec; Compressor := Compressor m;
     Partitioner := Partitioner m; MinTimestamp := MinTimestamp m;
     MaxTimestamp := MaxTimestamp m |}.

Definition setMetadata (m : Manifest) (md : option (list (string * string)))
  : Manifest :=
  {| SchemaName := SchemaName m; FormatVersion := FormatVersion m;
     DatasetID := DatasetID m; SnapshotID := SnapshotID m;
     ParentSnapshotID := ParentSnapshotID m; CreatedAt := CreatedAt m;
     Metadata := md; Files := Files m; RowCount := RowCount m;
     Codec := Codec m; Compressor := Compressor m;
     Partitioner := Partitioner m; MinTimestamp := MinTimestamp m;
     MaxTimestamp := MaxTimestamp m |}.

Definition setFiles (m : Manifest) (files : slice FileRef) : Manifest :=
  {| SchemaName := SchemaName m; FormatVersion := FormatVersion m;
     DatasetID := DatasetID m; SnapshotID := SnapshotID m;
     ParentSnapshotID := ParentSnapshotID m; CreatedAt := CreatedAt m;
     Metadata := Metadata m; Files := files; RowCount := RowCount m;
     Codec := Codec m; Compressor := Compressor m;
     Partitioner := Partitioner m; MinTimestamp := MinTimestamp m;
     MaxTimestamp := MaxTimestamp m |}.


(** The optional fields of a manifest, set as the tests of the optional
    fields do: the parent snapshot and the two timestamps. *)
Definition setOptional (m : Manifest) (parent : string)
           (minTs maxTs : option Time) : Manifest :=
  {| SchemaName := SchemaName m; FormatVersion := FormatVersion m;
     DatasetID := DatasetID m; SnapshotID := SnapshotID m;
     ParentSnapshotID := parent; CreatedAt := CreatedAt m;
     Metadata := Metadata m; Files := Files m; RowCount := RowCount m;
     Codec := Codec m; Compressor := Compressor m;
     Partitioner := Partitioner m; MinTimestamp := minTs;
     MaxTimestamp := maxTs |}.

(** A file reference with its optional checksum set. *)
Definition setChecksum (checksum : string) (f : FileRef) : FileRef :=
  {| Path := Path f; SizeBytes := SizeBytes f; Checksum := checksum |}.

(** The files of a manifest with their checksums set, each by [checksums] of
    the file. *)
Definition setChecksums (m : Manifest) (checksums : FileRef -> string)
  : Manifest :=
  setFiles m (match Files m with
              | Some files => Some (map (fun f => setChecksum (checksums f) f) files)
              | None => None
              end).

End Validate.

(** ** checksum.go: the MD5 checksum component *)

(** [crypto/md5]: the MD5 message digest of RFC 1321, on 32-bit words held in
    [Z] with the wrap-around of [uint32] written out. *)
Module MD5.
Open Scope Z_scope.

Definition word (x : Z) : Z := x mod 2 ^ 32.

Definition rotl (x c : Z) : Z :=
  word (Z.lor (Z.shiftl x c) (Z.shiftr x (32 - c))).

Definition lnot (x : Z) : Z := Z.lxor x 0xffffffff.

Definition shifts : list Z :=
  [ 7; 12; 17; 22; 7; 12; 17; 22; 7; 12; 17; 22; 7; 12; 17; 22;
    5; 9; 14; 20; 5; 9; 14; 20; 5; 9; 14; 20; 5; 9; 14; 20;
    4; 11; 16; 23; 4; 11; 16; 23; 4; 11; 16; 23; 4; 11; 16; 23;
    6; 10; 15; 21; 6; 10; 15; 21; 6; 10; 15; 21; 6; 10; 15; 21 ].

Definition sines : list Z :=
  [ 0xd76aa478; 0xe8c7b756; 0x242070db; 0xc1bdceee;
    0xf57c0faf; 0x4787c62a; 0xa8304613; 0xfd469501;
    0x698098d8; 0x8b44f7af; 0xffff5bb1; 0x895cd7be;
    0x6b901122; 0xfd987193; 0xa679438e; 0x49b40821;
    0xf61e2562; 0xc040b340; 0x265e5a51; 0xe9b6c7aa;
    0xd62f105d; 0x02441453; 0xd8a1e681; 0xe7d3fbc8;
    0x21e1cde6; 0xc33707d6; 0xf4d50d87; 0x455a14ed;
    0xa9e3e905; 0xfcefa3f8; 0x676f02d9; 0x8d2a4c8a;
    0xfffa3942; 0x8771f681; 0x6d9d6122; 0xfde5380c;
    0xa4beea44; 0x4bdecfa9; 0xf6bb4b60; 0xbebfbc70;
    0x289b7ec6; 0xeaa127fa; 0xd4ef3085; 0x04881d05;
    0xd9d4d039; 0xe6db99e5; 0x1fa27cf8; 0xc4ac5665;
    0xf4292244; 0x432aff97; 0xab9423a7; 0xfc93a039;
    0x655b59c3; 0x8f0ccc92; 0xffeff47d; 0x85845dd1;
    0x6fa87e4f; 0xfe2ce6e0; 0xa3014314; 0x4e0811a1;
    0xf7537e82; 0xbd3af235; 0x2ad7d2bb; 0xeb86d391 ].

Definition state : Type := (Z * Z * Z * Z)%type.

Definition init : state := (0x67452301, 0xefcdab89, 0x98badcfe, 0x10325476).

Definition zth (l : list Z) (i : Z) : Z := nth (Z.to_nat i) l 0.

(** Operation [i] (0..63) on the block of sixteen words [M]. *)
Definition operation (M : list Z) (st : state) (i : Z) : state :=
  let '(A, B, C, D) := st in
  let '(F, g) :=
    if i <? 16 then (Z.lor (Z.land B C) (Z.land (lnot B) D), i)
    else if i <? 32 then
      (Z.lor (Z.land D B) (Z.land (lnot D) C), (5 * i + 1) mod 16)
    else if i <? 48 then (Z.lxor B (Z.lxor C D), (3 * i + 5) mod 16)
    else (Z.lxor C (Z.lor B (lnot D)), (7 * i) mod 16) in
  let F' := word (F + A + zth sines i + zth M g) in
  (D, word (B + rotl F' (zth shifts i)), B, C).

(** Four bytes, least significant first, as a word. *)
Definition le_word (bs : list Z) : Z :=
  zth bs 0 + 2 ^ 8 * zth bs 1 + 2 ^ 16 * zth bs 2 + 2 ^ 24 * zth bs 3.

Definition le_bytes (n : nat) (x : Z) : list Z :=
  map (fun k => (x / 2 ^ (8 * Z.of_nat k)) mod 256) (seq 0 n).

Fixpoint chunks (size : nat) (fuel : nat) (bs : list Z) : list (list Z) :=
  match fuel, bs with
  | _, [] => []
  | O, _ => []
  | S fuel', _ => firstn size bs :: chunks size fuel' (skipn size bs)
  end.

Definition block (st : state) (bytes : list Z) : state :=
  let M := map le_word (chunks 4 16 bytes) in
  let '(A, B, C, D) := st in
  let '(A', B', C', D') :=
    fold_left (operation M) (map Z.of_nat (seq 0 64)) st in
  (word (A + A'), word (B + B'), word (C + C'), word (D + D')).

(** The message followed by the padding: a 0x80 byte, zero bytes up to 56
    modulo 64, and the length in bits on eight bytes. *)
Definition pad (msg : list Z) : list Z :=
  let n := Z.of_nat (List.length msg) in
  msg ++ [0x80] ++ repeat 0 (Z.to_nat ((55 - n) mod 64))
      ++ le_bytes 8 ((8 * n) mod 2 ^ 64).

Definition to_byte (x : Z) : Byte.byte :=
  match Byte.of_N (Z.to_N (x mod 256)) with
  | Some b => b
  | None => Byte.x00
  end.

Definition of_byte (b : Byte.byte) : Z := Z.of_N (Byte.to_N b).

(** The sixteen bytes of the digest of [data]. *)
Definition Sum (data : list Byte.byte) : list Byte.byte :=
  let padded := pad (map of_byte data) in
  let '(A, B, C, D) :=
    fold_left block (chunks 64 (List.length padded) padded) init in
  map to_byte (le_bytes 4 A ++ le_bytes 4 B ++ le_bytes 4 C ++ le_bytes 4 D).

End MD5.

(** [encoding/hex]. *)
Module Hex.

Definition hextable : string := "0123456789abcdef".

Definition digit (n : N) : ascii :=
  match String.get (N.to_nat n) hextable with
  | Some c => c
  | None => "0"%char
  end.

(** [hex.EncodeToString]: two digits for each byte, high nibble first. *)
Fixpoint EncodeToString (src : list Byte.byte) : string :=
  match src with
  | [] => ""
  | v :: rest =>
      String (digit (N.shiftr (Byte.to_N v) 4))
        (String (digit (N.land (Byte.to_N v) 15)) (EncodeToString rest))
  end.

(** A digit of the lowercase hexadecimal alphabet. *)
Definition lowerHex (c : ascii) : bool :=
  let n := nat_of_ascii c in
  ((48 <=? n) && (n <=? 57) || (97 <=? n) && (n <=? 102))%nat.

Fixpoint allLowerHex (s : string) : bool :=
  match s with
  | EmptyString => true
  | String c rest => lowerHex c && allLowerHex rest
  end.

End Hex.

Module Checksum.
Import Errors.

(** The [hash.Hash] that [md5.New()] returns.  Its running state is held as
    the bytes written so far, of which [Sum] gives the digest. *)
Record digest : Type := { written : list Byte.byte }.

Definition md5_New : digest := {| written := [] |}.

Definition digest_Write (d : digest) (p : list Byte.byte)
  : digest * (Z * option error) :=
  ({| written := written d ++ p |}, (Z.of_nat (List.length p), None)).

(** [Sum(b)] appends the current digest to [b]; the state is unchanged. *)
Definition digest_Sum (d : digest) (b : list Byte.byte) : list Byte.byte :=
  b ++ MD5.Sum (written d).

Inductive md5Checksum : Type := NewMD5Checksum.

Record hashWriter : Type := { h : digest }.

Definition Name (c : md5Checksum) : string := "md5".

Definition NewHasher (c : md5Checksum) : hashWriter := {| h := md5_New |}.

Definition Write (hw : hashWriter) (p : list Byte.byte)
  : hashWriter * (Z * option error) :=
  let '(h', r) := digest_Write (h hw) p in ({| h := h' |}, r).

Definition Sum (hw : hashWriter) : string :=
  Hex.EncodeToString (digest_Sum (h hw) []).

(** The hasher after the successive [Write] calls [ps]. *)
Definition writeAll (hw : hashWriter) (ps : list (list Byte.byte)) : hashWriter :=
  fold_left (fun w p => fst (Write w p)) ps hw.

End Checksum.

(** ** iterator.go: the three object iterators *)

Module Iterator.
Import Go Errors.

(** Modelled from the spec: the type [SegmentRef], whose declaration is
    missing here; a reference to a segment by its snapshot ID, the field [ID]
    the tests set. *)
Record SegmentRef : Type := { ID : string }.

Record ObjectRef : Type :=
  { Dataset : string; Segment : SegmentRef; Path : string }.

Definition ObjectKey : Type := string.

(** The zero value [ObjectRef{}]. *)
Definition zeroRef : ObjectRef :=
  {| Dataset := ""; Segment := {| ID := "" |}; Path := "" |}.

(** The interface [ObjectIterator].  The methods have pointer receivers: a
    method that assigns to the iterator returns the iterator after the
    call.  [Next] may end in a run-time panic; the iterator it returns then
    holds the assignments made before the panic. *)
Class ObjectIterator (I : Type) : Type :=
  { Next : I -> I * outcome bool;
    Ref : I -> ObjectRef;
    Err : I -> option error;
    Close : I -> I * option error }.

Module SegmentFileIterator.

Record t : Type :=
  { dataset : string;
    segment : SegmentRef;
    files : slice Validate.FileRef;
    index : Z;
    current : ObjectRef;
    err : option error;
    closed : bool }.

Definition New (dataset : string) (segment : SegmentRef)
           (files : slice Validate.FileRef) : t :=
  {| dataset := dataset; segment := segment; files := files;
     index := (-1)%Z; current := zeroRef; err := None; closed := false |}.

Definition set_index (it : t) (i : Z) : t :=
  {| dataset := dataset it; segment := segment it; files := files it;
     index := i; current := current it; err := err it;
     closed := closed it |}.

Definition set_current (it : t) (r : ObjectRef) : t :=
  {| dataset := dataset it; segment := segment it; files := files it;
     index := index it; current := r; err := err it;
     closed := closed it |}.

Definition Next (it : t) : t * outcome bool :=
  if closed it then (it, Returns false)
  else
    let it := set_index it (wrap_int (index it + 1)) in
    if (index it >=? len (files it))%Z then (it, Returns false)
    else
      match at_index (files it) (index it) with
      | Panics => (it, Panics)
      | Returns f =>
          (set_current it {| Dataset := dataset it;
                             Segment := segment it;
                             Path := Validate.Path f |},
           Returns true)
      end.

Definition Ref (it : t) : ObjectRef := current it.

Definition Err (it : t) : option error := err it.

(** The reference the iterator built from the same constructor arguments
    yields for the file [f]. *)
Definition refTo (dataset : string) (segment : SegmentRef)
           (f : Validate.FileRef) : ObjectRef :=
  {| Dataset := dataset; Segment := segment; Path := Validate.Path f |}.

Definition Close (it : t) : t * option error :=
  ({| dataset := dataset it; segment := segment it; files := None;
      index := index it; current := current it; err := err it;
      closed := true |}, None).

End SegmentFileIterator.

Module ListingIterator.

Record t : Type :=
  { dataset : string;
    segment : SegmentRef;
    keys : slice ObjectKey;
    index : Z;
    current : ObjectRef;
    err : option error;
    closed : bool }.

Definition New (dataset : string) (segment : SegmentRef)
           (keys : slice ObjectKey) : t :=
  {| dataset := dataset; segment := segment; keys := keys;
     index := (-1)%Z; current := zeroRef; err := None; closed := false |}.

Definition set_index (it : t) (i : Z) : t :=
  {| dataset := dataset it; segment := segment it; keys := keys it;
     index := i; current := current it; err := err it;
     closed := closed it |}.

Definition set_current (it : t) (r : ObjectRef) : t :=
  {| dataset := dataset it; segment := segment it; keys := keys it;
     index := index it; current := r; err := err it;
     closed := closed it |}.

Definition Next (it : t) : t * outcome bool :=
  if closed it then (it, Returns false)
  else
    let it := set_index it (wrap_int (index it + 1)) in
    if (index it >=? len (keys it))%Z then (it, Returns false)
    else
      match at_index (keys it) (index it) with
      | Panics => (it, Panics)
      | Returns k =>
          (set_current it {| Dataset := dataset it;
                             Segment := segment it;
                             Path := k |},
           Returns true)
      end.

Definition Ref (it : t) : ObjectRef := current it.

Definition Err (it : t) : option error := err it.

Definition Close (it : t) : t * option error :=
  ({| dataset := dataset it; segment := segment it; keys := None;
      index := index it; current := current it; err := err it;
      closed := true |}, None).

End ListingIterator.

Module EmptyIterator.

Record t : Type := { closed : bool }.

Definition New : t := {| closed := false |}.

Definition Next (it : t) : t * outcome bool := (it, Returns false).

Definition Ref (it : t) : ObjectRef := zeroRef.

Definition Err (it : t) : option error := None.

Definition Close (it : t) : t * option error := ({| closed := true |}, None).

End EmptyIterator.

#[global] Instance SegmentFileIterator_ObjectIterator
  : ObjectIterator SegmentFileIterator.t :=
  { Next := SegmentFileIterator.Next; Ref := SegmentFileIterator.Ref;
    Err := SegmentFileIterator.Err; Close := SegmentFileIterator.Close }.

#[global] Instance ListingIterator_ObjectIterator
  : ObjectIterator ListingIterator.t :=
  { Next := ListingIterator.Next; Ref := ListingIterator.Ref;
    Err := ListingIterator.Err; Close := ListingIterator.Close }.

#[global] Instance EmptyIterator_ObjectIterator
  : ObjectIterator EmptyIterator.t :=
  { Next := EmptyIterator.Next; Ref := EmptyIterator.Ref;
    Err := EmptyIterator.Err; Close := EmptyIterator.Close }.

(** *** Call sequences on an iterator *)

Inductive call : Type := CallNext | CallRef | CallErr | CallClose.

(** What a caller sees of one call. *)
Inductive seen : Type :=
| SawNext (r : outcome bool)
| SawRef (r : ObjectRef)
| SawErr (e : option error)
| SawClose (e : option error).

Definition step {I} `{ObjectIterator I} (it : I) (c : call) : I * seen :=
  match c with
  | CallNext => let '(it', r) := Next it in (it', SawNext r)
  | CallRef => (it, SawRef (Ref it))
  | CallErr => (it, SawErr (Err it))
  | CallClose => let '(it', e) := Close it in (it', SawClose e)
  end.

(** The results of the calls [calls], made in order on [it]; a caller that
    recovers from a panic of [Next] goes on with the same iterator. *)
Fixpoint run {I} `{ObjectIterator I} (it : I) (calls : list call) : list seen :=
  match calls with
  | [] => []
  | c :: rest => let '(it', s) := step it c in s :: run it' rest
  end.

(** The iterator after the calls [calls]. *)
Fixpoint after {I} `{ObjectIterator I} (it : I) (calls : list call) : I :=
  match calls with
  | [] => it
  | c :: rest => after (fst (step it c)) rest
  end.

(** The iterator laws, for the call sequences on an iterator [it] as
    constructed: a [Next] after a [Close] returns false, whatever is called
    before and in between; every [Close] returns nil, and a second [Close]
    leaves the iterator as the first left it; every [Err] returns, with
    nil. *)
Definition laws {I} `{ObjectIterator I} (it : I) : Prop :=
  (forall pre mid post : list call,
      nth_error (run it (pre ++ CallClose :: mid ++ CallNext :: post))
                (List.length pre + S (List.length mid))
      = Some (SawNext (Returns false)))
  /\ (forall pre post : list call,
        nth_error (run it (pre ++ CallClose :: post)) (List.length pre)
        = Some (SawClose None))
  /\ (forall calls : list call,
        fst (Close (fst (Close (after it calls))))
        = fst (Close (after it calls)))
  /\ (forall pre post : list call,
        nth_error (run it (pre ++ CallErr :: post)) (List.length pre)
        = Some (SawErr None)).

(** The iterator after [n] calls of [Next], and the result of the call of
    [Next] that follows them. *)
Definition advance {I} `{ObjectIterator I} (it : I) : I := fst (Next it).

Definition afterNext {I} `{ObjectIterator I} (n : N) (it : I) : I :=
  N.iter n advance it.

Definition nextResult {I} `{ObjectIterator I} (n : N) (it : I) : outcome bool :=
  snd (Next (afterNext n it)).

End Iterator.

(** ** The object store, as the adapter sees it *)

Module Store.
Import Go Errors.

(** A reader: the bytes it yields, and the error that ends them when the
    reading fails ([None] when the bytes end in [io.EOF]). *)
Record reader : Type :=
  { bytes : list Byte.byte; failure : option error }.

(** The methods [RangeReadStore] adds to [lode.Store].  The context argument
    of every method is left out. *)
Record RangeReadStore : Type :=
  { Stat : string -> Z * option error;
    ReadRange : string -> Z -> Z -> slice Byte.byte * option error;
    ReaderAt : string -> option reader * option error }.

(** A value of the interface [lode.Store]: the answers of its methods, and
    what the type assertion [store.(RangeReadStore)] finds, the further
    methods when the store has them. *)
Record t : Type :=
  { Put : string -> reader -> option error;
    Get : string -> option reader * option error;
    Exists : string -> bool * option error;
    List : string -> slice string * option error;
    Delete : string -> option error;
    asRangeReadStore : option RangeReadStore }.

(** The calls made on a store. *)
Inductive call : Type :=
| CalledGet (path : string)
| CalledList (prefix : string)
| CalledReadRange (path : string) (offset length : Z)
| CalledReaderAt (path : string).

(** The [mockStore] of layout_test.go: it has the five methods of
    [lode.Store] and no other. *)
Definition mockStore : t :=
  {| Put := fun _ _ => None;
     Get := fun _ => (None, None);
     Exists := fun _ => (false, None);
     List := fun _ => (None, None);
     Delete := fun _ => None;
     asRangeReadStore := None |}.

(** The [trackingStore] of layout_test.go, whose [List] answers
    [listResult]; it has no further method either. *)
Definition trackingStore (listResult : slice string) : t :=
  {| Put := fun _ _ => None;
     Get := fun _ => (None, Some ErrNotFound);
     Exists := fun _ => (false, None);
     List := fun _ => (listResult, None);
     Delete := fun _ => None;
     asRangeReadStore := None |}.

(** A store like [trackingStore] whose [List] returns [listResult] and the
    error [listErr] together. *)
Definition failingListStore (listResult : slice string) (listErr : error) : t :=
  {| Put := fun _ _ => None;
     Get := fun _ => (None, Some ErrNotFound);
     Exists := fun _ => (false, None);
     List := fun _ => (listResult, Some listErr);
     Delete := fun _ => None;
     asRangeReadStore := None |}.

End Store.

(** ** adapter.go: StoreAdapter *)

Module Adapter.
Import Go Errors.

Definition ObjectKey : Type := string.

(** Modelled from the spec: the types [ListOptions] and [ListPage], whose
    declarations are missing here; the fields are those [StoreAdapter.List]
    reads and sets. *)
Record ListOptions : Type := { Limit : Z }.

Record ListPage : Type := { Keys : slice ObjectKey; HasMore : bool }.

(** The zero value [ListPage{}]. *)
Definition zeroPage : ListPage := {| Keys := None; HasMore := false |}.

Record StoreAdapter : Type :=
  { store : Store.t;
    rangeReadStore : option Store.RangeReadStore }.

Definition NewStoreAdapter (store : Store.t) : StoreAdapter :=
  match Store.asRangeReadStore store with
  | Some rrs => {| store := store; rangeReadStore := Some rrs |}
  | None => {| store := store; rangeReadStore := None |}
  end.

(** Each method returns its results and the calls it made on the underlying
    store. *)
Definition Open (a : StoreAdapter) (key : ObjectKey)
  : (option Store.reader * option error) * list Store.call :=
  (Store.Get (store a) key, [Store.CalledGet key]).

Definition ReadRange (a : StoreAdapter) (key : ObjectKey) (offset length : Z)
  : (slice Byte.byte * option error) * list Store.call :=
  match rangeReadStore a with
  | None => ((None, Some ErrRangeReadNotSupported), [])
  | Some rrs =>
      (Store.ReadRange rrs key offset length,
       [Store.CalledReadRange key offset length])
  end.

Definition ReaderAt (a : StoreAdapter) (key : ObjectKey)
  : (option Store.reader * option error) * list Store.call :=
  match rangeReadStore a with
  | None => ((None, Some ErrRangeReadNotSupported), [])
  | Some rrs => (Store.ReaderAt rrs key, [Store.CalledReaderAt key])
  end.

Definition List (a : StoreAdapter) (prefix : ObjectKey) (opts : ListOptions)
  : (ListPage * option error) * list Store.call :=
  let '(paths, err) := Store.List (store a) prefix in
  (match err with
   | Some e => (zeroPage, Some e)
   | None =>
       let keys : slice ObjectKey := Some (elems paths) in
       if (Limit opts >? 0)%Z && (len keys >? Limit opts)%Z then
         ({| Keys := Some (firstn (Z.to_nat (Limit opts)) (elems keys));
             HasMore := true |}, None)
       else ({| Keys := keys; HasMore := false |}, None)
   end, [Store.CalledList prefix]).

Definition SupportsRangeReads (a : StoreAdapter) : bool :=
  match rangeReadStore a with
  | Some _ => true
  | None => false
  end.


(** Modelled from the spec: the type [ObjectInfo], whose declaration is
    missing here; the fields are those [StoreAdapter.Stat] sets. *)
Record ObjectInfo : Type := { Key : ObjectKey; SizeBytes : Z }.

(** The zero value [ObjectInfo{}]. *)
Definition zeroInfo : ObjectInfo := {| Key := ""; SizeBytes := 0 |}.

(** [io.ReadAll]: the bytes read until the end of the input or an error,
    and that error; the end of the input is no error. *)
Definition ReadAll (rc : Store.reader) : list Byte.byte * option error :=
  (Store.bytes rc, Store.failure rc).

(** The calls [Stat] makes on the underlying store. *)
Inductive statCall : Type :=
| StatCalled (path : string)
| GetCalled (path : string).

(** [StoreAdapter.Stat]: the size the store reports when it has range reads,
    and otherwise the length of the whole object, read through [Get] and
    [io.ReadAll].  A nil reader returned with a nil error makes [io.ReadAll]
    panic. *)
Definition Stat (a : StoreAdapter) (key : ObjectKey)
  : outcome (ObjectInfo * option error) * list statCall :=
  match rangeReadStore a with
  | Some rrs =>
      let '(size, err) := Store.Stat rrs key in
      (match err with
       | Some e => Returns (zeroInfo, Some e)
       | None => Returns ({| Key := key; SizeBytes := size |}, None)
       end, [StatCalled key])
  | None =>
      let '(rc, err) := Store.Get (store a) key in
      (match err with
       | Some e => Returns (zeroInfo, Some e)
       | None =>
           match rc with
           | None => Panics
           | Some rc =>
               let '(data, err) := ReadAll rc in
               match err with
               | Some e => Returns (zeroInfo, Some e)
               | None =>
                   Returns ({| Key := key;
                               SizeBytes := Z.of_nat (List.length data) |}, None)
               end
           end
       end, [GetCalled key])
  end.

End Adapter.

(** ** layout_test.go: the custom layout of the tests *)

Module CustomLayout.
Import Go.

(** [splitPath]: the non-empty pieces of the path between slashes; nil for
    the empty path, and when no piece is left. *)
Fixpoint nonEmptyParts (pieces : list string) (parts : slice string)
  : slice string :=
  match pieces with
  | [] => parts
  | part :: rest =>
      if negb (part =? "")%string
      then nonEmptyParts rest (Some (elems parts ++ [part])%list)
      else nonEmptyParts rest parts
  end.

Definition splitPath (p : string) : slice string :=
  if (p =? "")%string then None
  else nonEmptyParts (GoStrings.Split p GoPath.slash) None.

(** [customLayout], with the calls it records. *)
Record customLayout : Type :=
  { datasetsPrefix : string;
    listCalls : slice string;
    getManifestReq : slice string }.

Definition DatasetsPrefix (c : customLayout) : string := datasetsPrefix c.

Definition SegmentsPrefix (c : customLayout) (dataset : string)
  : string * customLayout :=
  let prefix := "custom/" ++ dataset ++ "/segs/" in
  (prefix,
   {| datasetsPrefix := datasetsPrefix c;
      listCalls := Some (elems (listCalls c) ++ [prefix])%list;
      getManifestReq := getManifestReq c |}).

Definition ManifestPath (c : customLayout) (dataset segment : string)
  : string * customLayout :=
  let path := "custom/" ++ dataset ++ "/segs/" ++ segment ++ "/meta.json" in
  (path,
   {| datasetsPrefix := datasetsPrefix c;
      listCalls := listCalls c;
      getManifestReq := Some (elems (getManifestReq c) ++ [path])%list |}).

(** [parts[i]], behind the test of the length. *)
Definition part (parts : slice string) (i : nat) : string :=
  nth i (elems parts) "".

Definition IsManifest (c : customLayout) (p : string) : bool :=
  let parts := splitPath p in
  if negb (len parts =? 5)%Z then false
  else (part parts 0 =? "custom")%string
       && (part parts 2 =? "segs")%string
       && (part parts 4 =? "meta.json")%string.

Definition ParseDatasetID (c : customLayout) (manifestPath : string) : string :=
  let parts := splitPath manifestPath in
  if negb (len parts =? 5)%Z
     || negb (part parts 0 =? "custom")%string
     || negb (part parts 2 =? "segs")%string
     || negb (part parts 4 =? "meta.json")%string
  then ""
  else part parts 1.

Definition ParseSegmentID (c : customLayout) (manifestPath : string) : string :=
  let parts := splitPath manifestPath in
  if negb (len parts =? 5)%Z
     || negb (part parts 0 =? "custom")%string
     || negb (part parts 2 =? "segs")%string
     || negb (part parts 4 =? "meta.json")%string
  then ""
  else part parts 3.

Definition ExtractPartitionPath (c : customLayout) (filePath : string) : string :=
  "".

End CustomLayout.

(* ===================================================================== *)
(** * Part II: properties                                                  *)
(* ===================================================================== *)

(** ** Splitting and joining on a separator *)

Section SplitJoin.
Import GoStrings.
Variable sep : ascii.

Lemma Split_not_nil (s : string) : Split s sep <> [].
Proof.
  destruct s as [|c s]; simpl; [discriminate|].
  destruct (Ascii.eqb c sep); [discriminate|].
  destruct (Split s sep); discriminate.
Qed.

Lemma Split_without_sep (a : string) :
  ContainsByte a sep = false -> Split a sep = [a].
Proof.
  induction a as [|c a IH]; simpl; intros H; [reflexivity|].
  apply orb_false_iff in H as [Hc Ha].
  rewrite Hc, (IH Ha). reflexivity.
Qed.

Lemma Split_app (a b : string) :
  ContainsByte a sep = false ->
  Split (a ++ String sep b) sep = a :: Split b sep.
Proof.
  induction a as [|c a IH]; simpl; intros H.
  - rewrite Ascii.eqb_refl. reflexivity.
  - apply orb_false_iff in H as [Hc Ha].
    rewrite Hc, (IH Ha). reflexivity.
Qed.

(** Joining the pieces with the separator gives the string back. *)
Lemma Join_Split (s : string) :
  Join (Split s sep) (String sep "") = s.
Proof.
  induction s as [|c s IH]; simpl; [reflexivity|].
  destruct (Ascii.eqb_spec c sep) as [->|Hne].
  - pose proof (Split_not_nil s) as Hnil.
    simpl. destruct (Split s sep) as [|x xs] eqn:E; [contradiction|].
    simpl in IH |- *. rewrite IH. reflexivity.
  - pose proof (Split_not_nil s) as Hnil.
    destruct (Split s sep) as [|x xs] eqn:E; [contradiction|].
    simpl in IH |- *. destruct xs; simpl in *; rewrite <- IH; reflexivity.
Qed.

(** Splitting a join of separator-free elements gives the elements back. *)
Lemma Split_Join (elems : list string) :
  elems <> [] ->
  Forall (fun e => ContainsByte e sep = false) elems ->
  Split (Join elems (String sep "")) sep = elems.
Proof.
  induction elems as [|e rest IH]; intros Hne Hall; [contradiction|].
  inversion Hall as [|? ? He Hrest]; subst.
  destruct rest as [|e' rest'].
  - simpl. apply Split_without_sep. exact He.
  - change (Join (e :: e' :: rest') (String sep ""))
      with (e ++ String sep (Join (e' :: rest') (String sep ""))).
    rewrite (Split_app _ _ He), IH; [reflexivity|discriminate|exact Hrest].
Qed.

End SplitJoin.

Section SplitPieces.
Import GoStrings.
Variable sep : ascii.

(** No piece of a split holds the separator. *)
Lemma Split_pieces_without_sep (s : string) :
  Forall (fun piece => ContainsByte piece sep = false) (Split s sep).
Proof.
  induction s as [|c s IH]; simpl.
  - repeat constructor.
  - destruct (Ascii.eqb c sep) eqn:Hc.
    + constructor; [reflexivity|exact IH].
    + destruct (Split s sep) as [|piece pieces].
      * repeat constructor. simpl. rewrite Hc. reflexivity.
      * inversion IH as [|? ? Hp Hps]; subst.
        constructor; [simpl; rewrite Hc, Hp; reflexivity|exact Hps].
Qed.

(** A split has one piece more than the string has separators. *)
Lemma Split_length (s : string) :
  List.length (Split s sep) = S (CountByte s sep).
Proof.
  induction s as [|c s IH]; simpl; [reflexivity|].
  destruct (Ascii.eqb c sep).
  - simpl. rewrite IH. reflexivity.
  - destruct (Split s sep) as [|piece pieces]; simpl in *; [discriminate|].
    exact IH.
Qed.

Lemma CountByte_app (a b : string) :
  CountByte (a ++ b) sep = (CountByte a sep + CountByte b sep)%nat.
Proof.
  induction a as [|c a IH]; simpl; [reflexivity|]. rewrite IH. lia.
Qed.

End SplitPieces.

(** ** Cleaning a path of plain elements *)

Section CleanPlain.
Import GoPath.

Lemma clean_elem_plain (rooted : bool) (out : list string) (dotdot : nat)
      (e : string) :
  plain e -> clean_elem rooted (out, dotdot) e = (e :: out, dotdot).
Proof.
  intros (H0 & H1 & H2 & _). unfold clean_elem.
  apply String.eqb_neq in H0, H1, H2. rewrite H0, H1, H2. reflexivity.
Qed.

Lemma clean_fold_plain (rooted : bool) (elems out : list string) (dotdot : nat) :
  Forall plain elems ->
  fold_left (clean_elem rooted) elems (out, dotdot)
  = ((rev elems ++ out)%list, dotdot).
Proof.
  intros H. revert out.
  induction H as [|e rest He _ IH]; intros out; [reflexivity|].
  cbn [fold_left rev]. rewrite (clean_elem_plain _ _ _ _ He), IH, <- app_assoc.
  reflexivity.
Qed.

Lemma Join_head (c : ascii) (e : string) (rest : list string) (sep : string) :
  exists tail, GoStrings.Join (String c e :: rest) sep = String c tail.
Proof. destruct rest; simpl; eauto. Qed.

(** [path.Clean] leaves a relative path of plain elements as it is. *)
Lemma Clean_plain (elems : list string) :
  elems <> [] -> Forall plain elems ->
  Clean (GoStrings.Join elems "/") = GoStrings.Join elems "/".
Proof.
  intros Hne Hall.
  assert (Hsplit : GoStrings.Split (GoStrings.Join elems "/") slash = elems).
  { apply Split_Join; [exact Hne|].
    eapply Forall_impl; [|exact Hall]. intros e He. apply He. }
  destruct elems as [|e rest]; [contradiction|].
  inversion Hall as [|? ? He _]; subst.
  destruct e as [|c e]; [destruct He as [He _]; contradiction|].
  assert (Hc : Ascii.eqb c slash = false).
  { destruct He as (_ & _ & _ & He). simpl in He.
    apply orb_false_iff in He. apply He. }
  destruct (Join_head c e rest "/") as [tail Htail].
  unfold Clean. rewrite Hsplit, clean_fold_plain by exact Hall.
  rewrite app_nil_r, rev_involutive.
  rewrite Htail. cbn [String.eqb]. rewrite Hc. reflexivity.
Qed.

(** The model of [path.Clean] on the table of the standard library's own
    test, path_test.go. *)
Lemma Clean_path_test :
  map GoPath.Clean
      [ ""; "abc"; "abc/def"; "a/b/c"; "."; ".."; "../.."; "../../abc"; "/abc";
        "/"; "abc/"; "abc/def/"; "a/b/c/"; "./"; "../"; "../../"; "/abc/";
        "abc//def//ghi"; "//abc"; "///abc"; "//abc//"; "abc//"; "abc/./def";
        "/./abc/def"; "abc/."; "abc/def/ghi/../jkl"; "abc/def/../ghi/../jkl";
        "abc/def/.."; "abc/def/../.."; "/abc/def/../.."; "abc/def/../../..";
        "/abc/def/../../.."; "abc/def/../../../ghi/jkl/../../../mno";
        "abc/./../def"; "abc//./../def"; "abc/../../././../def" ]
  = [ "."; "abc"; "abc/def"; "a/b/c"; "."; ".."; "../.."; "../../abc"; "/abc";
      "/"; "abc"; "abc/def"; "a/b/c"; "."; ".."; "../.."; "/abc";
      "abc/def/ghi"; "/abc"; "/abc"; "/abc"; "abc"; "abc/def";
      "/abc/def"; "abc"; "abc/def/jkl"; "abc/jkl";
      "abc"; "."; "/"; "..";
      "/"; "../../mno";
      "def"; "def"; "../../def" ].
Proof. vm_compute. reflexivity. Qed.

End CleanPlain.

(** ** DefaultLayout *)

Section DefaultLayout.
Import Layout.

Lemma isValidManifestPath_iff (p : string) :
  isValidManifestPath p = true <->
  exists d s, d <> "" /\ s <> "" /\
    GoStrings.Split p "/" = ["datasets"; d; "snapshots"; s; "manifest.json"].
Proof.
  unfold isValidManifestPath, GoPath.slash, index.
  split.
  - destruct (GoStrings.Split p "/") as [|a [|b [|c [|d [|e [|f l]]]]]];
      simpl; try discriminate.
    intros H.
    repeat (apply andb_true_iff in H; destruct H as [H ?]).
    exists b, d.
    repeat match goal with
           | E : (_ =? _)%string = true |- _ => apply String.eqb_eq in E
           | E : negb (_ =? _)%string = true |- _ =>
               apply negb_true_iff, String.eqb_neq in E
           end.
    subst. repeat split; assumption.
  - intros (d & s & Hd & Hs & ->). simpl.
    apply String.eqb_neq in Hd, Hs. rewrite Hd, Hs. reflexivity.
Qed.

(** The canonical path of two slash-free, non-empty components is a valid
    manifest path, and its second and fourth components are the two. *)
Lemma Split_canonical (d s : string) :
  GoStrings.ContainsByte d "/" = false ->
  GoStrings.ContainsByte s "/" = false ->
  GoStrings.Split
    (GoStrings.Join ["datasets"; d; "snapshots"; s; "manifest.json"] "/") "/"
  = ["datasets"; d; "snapshots"; s; "manifest.json"].
Proof.
  intros Hd Hs. apply Split_Join; [discriminate|].
  repeat constructor; assumption.
Qed.

End DefaultLayout.

(** C2: [DefaultLayout.IsManifest] returns true exactly for the paths made
    of five components between slashes: [datasets], a non-empty dataset ID,
    [snapshots], a non-empty snapshot ID and [manifest.json], that is, the
    strings [datasets/d/snapshots/s/manifest.json] where [d] and [s] are not
    empty and hold no slash; the six stray paths the specification lists are
    rejected. *)
Theorem IsManifest_exactly_five_components :
  (forall p : string,
      Layout.IsManifest p = true <->
      exists d s,
        d <> "" /\ s <> ""
        /\ GoStrings.ContainsByte d "/" = false
        /\ GoStrings.ContainsByte s "/" = false
        /\ p = "datasets/" ++ d ++ "/snapshots/" ++ s ++ "/manifest.json")
  /\ Layout.IsManifest "" = false
  /\ Layout.IsManifest "manifest.json" = false
  /\ Layout.IsManifest "datasets/x/misc/manifest.json" = false
  /\ Layout.IsManifest "datasets/x/snapshots/manifest.json" = false
  /\ Layout.IsManifest "datasets/x/snapshots/y/sub/manifest.json" = false
  /\ Layout.IsManifest "datasets/x/snapshots/y/manifest.txt" = false.
Proof.
  split; [|repeat split; reflexivity].
  intros p. unfold Layout.IsManifest. rewrite isValidManifestPath_iff. split.
  - intros (d & s & Hd & Hs & Hsplit).
    pose proof (Split_pieces_without_sep "/" p) as Hfree.
    pose proof (Join_Split "/" p) as Hjoin.
    rewrite Hsplit in Hfree, Hjoin.
    inversion Hfree as [|? ? _ H1]; subst. inversion H1 as [|? ? Hdf H2]; subst.
    inversion H2 as [|? ? _ H3]; subst. inversion H3 as [|? ? Hsf _]; subst.
    exists d, s. repeat split; assumption.
  - intros (d & s & Hd & Hs & Hdf & Hsf & ->).
    exists d, s. repeat split; try assumption.
    apply (Split_canonical d s Hdf Hsf).
Qed.

(** C1, at the dataset ID [..]: the ID is valid for the data model, yet
    [path.Join] removes it together with the [datasets] element, so that
    [ManifestPath] is not of the canonical form and both parsers return the
    empty string.  The same happens for the ID [.], and for a snapshot ID that
    is [.] or [..]. *)
Theorem ManifestPath_dot_ids_do_not_round_trip :
  Layout.validID ".." = true /\ Layout.validID "." = true
  /\ Layout.validID "s" = true /\ Layout.validID "d" = true
  /\ Layout.ManifestPath ".." "s" = "snapshots/s/manifest.json"
  /\ Layout.ParseDatasetID (Layout.ManifestPath ".." "s") = ""
  /\ Layout.ParseSegmentID (Layout.ManifestPath ".." "s") = ""
  /\ Layout.ManifestPath "." "s" = "datasets/snapshots/s/manifest.json"
  /\ Layout.ParseDatasetID (Layout.ManifestPath "." "s") = ""
  /\ Layout.ManifestPath "d" ".." = "datasets/d/manifest.json"
  /\ Layout.ParseSegmentID (Layout.ManifestPath "d" "..") = "".
Proof. repeat split; reflexivity. Qed.

(** A valid ID is not empty and has no slash. *)
Lemma validID_slash_free (id : string) :
  Layout.validID id = true ->
  id <> "" /\ GoStrings.ContainsByte id "/" = false.
Proof.
  destruct id as [|c rest]; [discriminate|].
  unfold Layout.validID. intros H.
  apply andb_true_iff in H as [H _]. apply andb_true_iff in H as [H _].
  apply negb_true_iff in H. split; [discriminate|exact H].
Qed.

(** Away from the IDs [.] and [..], the round trip of C1 holds: for valid
    IDs, [ManifestPath] is the canonical path and the parsers give the two
    IDs back. *)
Lemma ManifestPath_round_trip (d s : string) :
  Layout.validID d = true -> Layout.validID s = true ->
  d <> "." -> d <> ".." -> s <> "." -> s <> ".." ->
  Layout.ManifestPath d s = "datasets/" ++ d ++ "/snapshots/" ++ s ++ "/manifest.json"
  /\ Layout.IsManifest (Layout.ManifestPath d s) = true
  /\ Layout.ParseDatasetID (Layout.ManifestPath d s) = d
  /\ Layout.ParseSegmentID (Layout.ManifestPath d s) = s.
Proof.
  intros Hvd Hvs Hd1 Hd2 Hs1 Hs2.
  destruct (validID_slash_free d Hvd) as [Hd Hds].
  destruct (validID_slash_free s Hvs) as [Hs Hss].
  assert (Hpath : Layout.ManifestPath d s
                  = GoStrings.Join ["datasets"; d; "snapshots"; s; "manifest.json"] "/").
  { unfold Layout.ManifestPath, GoPath.Join.
    assert (Hkept : filter (fun e => negb (e =? "")%string)
                      [Layout.defaultDatasetsDir; d; Layout.defaultSnapshotsDir; s;
                       Layout.defaultManifestFile]
                    = ["datasets"; d; "snapshots"; s; "manifest.json"]).
    { apply String.eqb_neq in Hd, Hs. simpl. rewrite Hd, Hs. reflexivity. }
    cbv zeta. unfold Layout.DatasetID, Layout.SnapshotID.
    rewrite Hkept. apply Clean_plain; [discriminate|].
    repeat constructor; solve [assumption | discriminate]. }
  assert (Hvalid : Layout.isValidManifestPath (Layout.ManifestPath d s) = true).
  { apply isValidManifestPath_iff. exists d, s.
    rewrite Hpath, Split_canonical by assumption. auto. }
  unfold Layout.IsManifest, Layout.ParseDatasetID, Layout.ParseSegmentID.
  rewrite Hvalid. cbn [negb]. change GoPath.slash with "/"%char.
  rewrite Hpath, (Split_canonical d s Hds Hss).
  repeat split; reflexivity.
Qed.

(** C7, for a dataset named [data]: the path is of the canonical form and has
    no partition, yet [ExtractPartitionPath] stops at the first [data]
    component, which is the dataset ID, and returns the rest of the directory
    as the partition.  The same happens for a snapshot named [data], and with
    a partition the fragment returned is too long. *)
Theorem ExtractPartitionPath_stops_at_first_data :
  Layout.validID "data" = true /\ Layout.validID "s" = true
  /\ Layout.dataPath "data" "s" [] "file.json"
     = "datasets/data/snapshots/s/data/file.json"
  /\ Layout.ExtractPartitionPath (Layout.dataPath "data" "s" [] "file.json")
     = "snapshots/s/data"
  /\ Layout.ExtractPartitionPath (Layout.dataPath "d" "data" [] "file.json")
     = "data"
  /\ Layout.ExtractPartitionPath (Layout.dataPath "data" "s" ["day=1"] "file.json")
     = "snapshots/s/data/day=1".
Proof. repeat split; reflexivity. Qed.

Lemma string_app_assoc (a b c : string) : (a ++ b) ++ c = a ++ b ++ c.
Proof. induction a as [|x a IH]; simpl; [reflexivity|]. rewrite IH. reflexivity. Qed.

Lemma Join_app_last (l : list string) (f sep : string) :
  l <> [] -> GoStrings.Join (l ++ [f]) sep = GoStrings.Join l sep ++ sep ++ f.
Proof.
  induction l as [|e rest IH]; intros Hne; [contradiction|].
  destruct rest as [|e' rest']; [reflexivity|].
  change (GoStrings.Join ((e :: e' :: rest') ++ [f]) sep)
    with (e ++ sep ++ GoStrings.Join ((e' :: rest') ++ [f]) sep).
  rewrite IH by discriminate.
  change (GoStrings.Join (e :: e' :: rest') sep)
    with (e ++ sep ++ GoStrings.Join (e' :: rest') sep).
  rewrite !string_app_assoc. reflexivity.
Qed.

(** Away from the IDs named [data], the extraction of C7 holds: on the
    canonical data path it returns the partition fragment, and the empty
    string when there is none. *)
Lemma ExtractPartitionPath_canonical (d s f : string) (frag : list string) :
  Layout.validID d = true -> Layout.validID s = true ->
  GoStrings.ContainsByte f "/" = false ->
  Forall (fun e => GoStrings.ContainsByte e "/" = false) frag ->
  d <> "data" -> s <> "data" ->
  Layout.ExtractPartitionPath (Layout.dataPath d s frag f)
  = GoStrings.Join frag "/".
Proof.
  intros Hvd Hvs Hf Hfrag Hdd Hsd.
  destruct (validID_slash_free d Hvd) as [_ Hd].
  destruct (validID_slash_free s Hvs) as [_ Hs].
  set (parts := (["datasets"; d; "snapshots"; s; "data"] ++ frag ++ [f])%list).
  assert (Hpath : Layout.dataPath d s frag f = GoStrings.Join parts "/").
  { unfold Layout.dataPath, parts. destruct frag as [|e rest]; [reflexivity|].
    change (GoStrings.Join
              (["datasets"; d; "snapshots"; s; "data"] ++ (e :: rest) ++ [f]) "/")
      with ("datasets/" ++ d ++ "/snapshots/" ++ s ++ "/data/"
              ++ GoStrings.Join ((e :: rest) ++ [f]) "/").
    rewrite Join_app_last by discriminate. reflexivity. }
  assert (Hsplit : GoStrings.Split (Layout.dataPath d s frag f) GoPath.slash = parts).
  { rewrite Hpath. apply Split_Join; [discriminate|].
    unfold parts. repeat (apply Forall_cons; [first [assumption|reflexivity]|]).
    apply Forall_app. split; [assumption|]. repeat constructor. assumption. }
  unfold Layout.ExtractPartitionPath. rewrite Hsplit.
  assert (Hidx : Layout.findDataIdx parts 0 = 4%Z).
  { apply String.eqb_neq in Hdd, Hsd. unfold parts.
    cbn [app Layout.findDataIdx]. unfold Layout.defaultDataDir.
    rewrite Hdd, Hsd. reflexivity. }
  assert (Hlen : Z.of_nat (List.length parts) = (5 + Z.of_nat (List.length frag) + 1)%Z).
  { unfold parts. rewrite !length_app. cbn [List.length]. lia. }
  cbv zeta. rewrite Hidx, Hlen.
  replace ((4 <? 0)%Z || (4 >=? 5 + Z.of_nat (List.length frag) + 1 - 1)%Z)
    with false by (symmetry; apply orb_false_iff; split; lia).
  assert (Hslice : Layout.slice parts (4 + 1) (5 + Z.of_nat (List.length frag) + 1 - 1)
                   = frag).
  { unfold Layout.slice.
    replace (Z.to_nat (5 + Z.of_nat (List.length frag) + 1 - 1 - (4 + 1)))
      with (List.length frag) by lia.
    change (Z.to_nat (4 + 1)) with 5%nat. unfold parts. simpl skipn.
    rewrite firstn_app, firstn_all, Nat.sub_diag. simpl. apply app_nil_r. }
  rewrite Hslice. destruct frag; reflexivity.
Qed.

(** ** ValidateManifest *)

Section ManifestValidation.
Import Go Errors Validate.

Lemma fieldOf_invalid (field message : string) :
  fieldOf (invalid field message) = Some field.
Proof. reflexivity. Qed.

Lemma Is_invalid (field message : string) :
  Is (invalid field message) ErrManifestInvalid = true.
Proof. reflexivity. Qed.

(** Every result of the validator is [nil] or a validation error. *)
Lemma validateFiles_result (files : list FileRef) (i : Z) :
  validatorResult (validateFiles files i).
Proof.
  revert i. induction files as [|f rest IH]; intros i; simpl.
  - constructor.
  - destruct (Path f =? "")%string; [constructor|].
    destruct (SizeBytes f <? 0)%Z; [constructor|apply IH].
Qed.

Lemma ValidateManifest_result (m : option Manifest) :
  validatorResult (ValidateManifest m).
Proof.
  destruct m as [m|]; simpl; [|constructor].
  repeat match goal with
         | |- validatorResult (if ?c then _ else _) =>
             destruct c; [constructor|]
         | |- validatorResult (match ?x with Some _ => _ | None => _ end) =>
             destruct x; [|constructor]
         end.
  apply validateFiles_result.
Qed.

Lemma validateFiles_first_failure (files : list FileRef) (i : Z) :
  fieldOf (validateFiles files i) = firstFailure (specFilesChecks files i).
Proof.
  revert i. induction files as [|f rest IH]; intros i; [reflexivity|].
  cbn [validateFiles specFilesChecks specFileChecks app firstFailure].
  unfold nonEmpty. rewrite Z.leb_antisym.
  destruct (Path f =? "")%string; [reflexivity|].
  destruct (SizeBytes f <? 0)%Z; [reflexivity|].
  apply IH.
Qed.

(** The validator returns the field of the first failing check of the
    specification's list. *)
Lemma ValidateManifest_field (m : option Manifest) :
  fieldOf (ValidateManifest m) = firstFailure (specChecks m).
Proof.
  destruct m as [m|]; [|reflexivity].
  unfold ValidateManifest, specChecks, nonEmpty.
  cbn [app firstFailure]. rewrite Z.leb_antisym.
  destruct (SchemaName m =? "")%string; [reflexivity|].
  destruct (FormatVersion m =? "")%string; [reflexivity|].
  destruct (DatasetID m =? "")%string; [reflexivity|].
  destruct (SnapshotID m =? "")%string; [reflexivity|].
  destruct (IsZero (CreatedAt m)); [reflexivity|].
  destruct (Metadata m); [|reflexivity].
  destruct (Files m) as [files|]; [|reflexivity].
  destruct (RowCount m <? 0)%Z; [reflexivity|].
  destruct (Codec m =? "")%string; [reflexivity|].
  destruct (Compressor m =? "")%string; [reflexivity|].
  destruct (Partitioner m =? "")%string; [reflexivity|].
  apply validateFiles_first_failure.
Qed.

Lemma firstFailure_None (checks : list check) :
  firstFailure checks = None <-> Forall passes checks.
Proof.
  induction checks as [|[field ok] rest IH]; simpl.
  - split; [constructor|reflexivity].
  - destruct ok.
    + rewrite IH. split; [intros H; constructor; [reflexivity|exact H]|].
      intros H; inversion H; assumption.
    + split; [discriminate|]. intros H; inversion H as [|? ? Hp _].
      discriminate Hp.
Qed.

Lemma ValidateManifest_nil_iff (m : option Manifest) :
  ValidateManifest m = None <-> Forall passes (specChecks m).
Proof.
  rewrite <- firstFailure_None, <- ValidateManifest_field.
  destruct (ValidateManifest_result m); [tauto|].
  rewrite fieldOf_invalid. unfold invalid. split; discriminate.
Qed.

End ManifestValidation.

(** C3: [ValidateManifest] returns nil exactly for the manifests that pass
    every required check, and otherwise an error whose [Field] is the
    canonical JSON name of the first check that fails, in the order of the
    specification; so for the fields [codec], [metadata] and [files[1].path]
    of the tests. *)
Theorem ValidateManifest_first_failing_check :
  (forall m : option Validate.Manifest,
      (Validate.ValidateManifest m = None
       <-> Forall Validate.passes (Validate.specChecks m))
      /\ Validate.fieldOf (Validate.ValidateManifest m)
         = Validate.firstFailure (Validate.specChecks m))
  /\ Validate.ValidateManifest (Some Validate.validManifest) = None
  /\ Validate.fieldOf (Validate.ValidateManifest None) = Some "manifest"
  /\ Validate.fieldOf
       (Validate.ValidateManifest
          (Some (Validate.setCodec Validate.validManifest "")))
     = Some "codec"
  /\ Validate.fieldOf
       (Validate.ValidateManifest
          (Some (Validate.setMetadata Validate.validManifest None)))
     = Some "metadata"
  /\ Validate.fieldOf
       (Validate.ValidateManifest
          (Some (Validate.setFiles Validate.validManifest
                   (Some [ {| Validate.Path := "data/file1.json";
                              Validate.SizeBytes := 100;
                              Validate.Checksum := "" |};
                           {| Validate.Path := "";
                              Validate.SizeBytes := 200;
                              Validate.Checksum := "" |} ]))))
     = Some "files[1].path".
Proof.
  split.
  - intros m. split; [apply ValidateManifest_nil_iff|apply ValidateManifest_field].
  - repeat split; reflexivity.
Qed.

(** C5: a non-nil error of [ValidateManifest] unwraps to the sentinel
    [ErrManifestInvalid], and is a [ManifestValidationError] whose [Field] is
    that of the first failing check. *)
Theorem ValidateManifest_error_is_sentinel_and_typed
        (m : option Validate.Manifest) (e : Errors.error) :
  Validate.ValidateManifest m = Some e ->
  Errors.Is (Some e) Errors.ErrManifestInvalid = true
  /\ exists ve : Errors.ManifestValidationError,
      Errors.As_ManifestValidationError (Some e) = Some ve
      /\ e = Errors.ValidationError ve
      /\ Errors.Unwrap e = Some Errors.ErrManifestInvalid
      /\ Validate.firstFailure (Validate.specChecks m) = Some (Errors.Field ve).
Proof.
  intros H.
  pose proof (ValidateManifest_field m) as Hfield.
  destruct (ValidateManifest_result m) as [|field message]; [discriminate|].
  unfold Validate.invalid in H. injection H as <-.
  split; [reflexivity|].
  eexists. repeat split. rewrite <- Hfield. reflexivity.
Qed.

Lemma ValidateManifest_error_is_sentinel_and_typed_witness :
  Validate.ValidateManifest (Some (Validate.setCodec Validate.validManifest ""))
  = Some (Errors.ValidationError
            {| Errors.Field := "codec"; Errors.Message := "is required" |})
  /\ Errors.Is (Some (Errors.ValidationError
                        {| Errors.Field := "codec";
                           Errors.Message := "is required" |}))
               Errors.ErrManifestInvalid = true.
Proof.
  split; [reflexivity|].
  apply (ValidateManifest_error_is_sentinel_and_typed
           (Some (Validate.setCodec Validate.validManifest ""))).
  reflexivity.
Defined.

(** ** The MD5 checksum component *)

Section MD5Checksum.
Import Checksum.

Lemma md5_empty :
  Sum (NewHasher NewMD5Checksum) = "d41d8cd98f00b204e9800998ecf8427e".
Proof. vm_compute. reflexivity. Qed.

Lemma md5_abc :
  Sum (writeAll (NewHasher NewMD5Checksum) [[Byte.x61]; [Byte.x62; Byte.x63]])
  = "900150983cd24fb0d6963f7d28e17f72".
Proof. vm_compute. reflexivity. Qed.

Lemma md5_seventy_a :
  Hex.EncodeToString (MD5.Sum (repeat Byte.x61 70))
  = "0f5c6c4e740bfcc08c3c26ccb2673d46".
Proof. vm_compute. reflexivity. Qed.

Lemma le_bytes_length (n : nat) (x : Z) : List.length (MD5.le_bytes n x) = n.
Proof. unfold MD5.le_bytes. rewrite length_map, length_seq. reflexivity. Qed.

Lemma MD5_Sum_length (data : list Byte.byte) : List.length (MD5.Sum data) = 16%nat.
Proof.
  unfold MD5.Sum.
  destruct (fold_left MD5.block _ MD5.init) as [[[A B] C] D].
  rewrite length_map, !length_app, !le_bytes_length. reflexivity.
Qed.

Lemma EncodeToString_length (src : list Byte.byte) :
  String.length (Hex.EncodeToString src) = (2 * List.length src)%nat.
Proof. induction src as [|v rest IH]; simpl; [reflexivity|]. rewrite IH. lia. Qed.

Lemma digit_lowerHex (n : N) : Hex.lowerHex (Hex.digit n) = true.
Proof.
  unfold Hex.digit. generalize (N.to_nat n) as k. intros k.
  do 16 (destruct k as [|k]; [reflexivity|]). reflexivity.
Qed.

Lemma EncodeToString_lowerHex (src : list Byte.byte) :
  Hex.allLowerHex (Hex.EncodeToString src) = true.
Proof.
  induction src as [|v rest IH]; simpl; [reflexivity|].
  rewrite !digit_lowerHex, IH. reflexivity.
Qed.

Lemma writeAll_written (ps : list (list Byte.byte)) (hw : hashWriter) :
  written (h (writeAll hw ps)) = (written (h hw) ++ List.concat ps)%list.
Proof.
  revert hw. induction ps as [|p rest IH]; intros hw; simpl.
  - symmetry. apply app_nil_r.
  - unfold writeAll in IH |- *. simpl. rewrite IH. simpl.
    rewrite <- app_assoc. reflexivity.
Qed.

End MD5Checksum.

(** C4, as the code has it: after any sequence of writes, [Sum] of a hasher of
    the MD5 component is the lowercase hexadecimal encoding of the MD5 digest
    of all the bytes written, thirty-two hexadecimal digits, with no [md5:]
    in front. *)
Theorem md5_Sum_is_bare_hex (ps : list (list Byte.byte)) :
  let hw := Checksum.writeAll (Checksum.NewHasher Checksum.NewMD5Checksum) ps in
  Checksum.Sum hw = Hex.EncodeToString (MD5.Sum (List.concat ps))
  /\ String.length (Checksum.Sum hw) = 32%nat
  /\ Hex.allLowerHex (Checksum.Sum hw) = true.
Proof.
  intros hw. unfold Checksum.Sum, Checksum.digest_Sum. subst hw.
  rewrite writeAll_written. cbn [Checksum.NewHasher Checksum.h Checksum.md5_New
                                 Checksum.written app].
  repeat split.
  - rewrite EncodeToString_length, MD5_Sum_length. reflexivity.
  - apply EncodeToString_lowerHex.
Qed.

(** C4 as stated fails on a hasher nothing was written to: [Sum] is the bare
    digest, not the name, a colon and the digest. *)
Lemma md5_Sum_has_no_name_prefix :
  Checksum.Sum (Checksum.NewHasher Checksum.NewMD5Checksum)
  = "d41d8cd98f00b204e9800998ecf8427e"
  /\ Checksum.Sum (Checksum.NewHasher Checksum.NewMD5Checksum)
     <> Checksum.Name Checksum.NewMD5Checksum ++ ":"
          ++ Hex.EncodeToString (MD5.Sum []).
Proof.
  split; [vm_compute; reflexivity|].
  vm_compute. discriminate.
Qed.

(** ** Iterators *)

Section IteratorLaws.
Import Go Errors Iterator.

Context {I : Type} `{ObjectIterator I}.

Lemma run_app (it : I) (a b : list call) :
  run it (a ++ b) = (run it a ++ run (after it a) b)%list.
Proof.
  revert it. induction a as [|c a IH]; intros it; [reflexivity|].
  cbn [app run after]. destruct (step it c) as [it' s] eqn:E.
  cbn [fst]. rewrite IH. reflexivity.
Qed.

Lemma run_length (it : I) (calls : list call) :
  List.length (run it calls) = List.length calls.
Proof.
  revert it. induction calls as [|c rest IH]; intros it; [reflexivity|].
  cbn [run]. destruct (step it c). cbn [List.length]. rewrite IH. reflexivity.
Qed.

Lemma after_app (it : I) (a b : list call) :
  after it (a ++ b) = after (after it a) b.
Proof.
  revert it. induction a as [|c a IH]; intros it; [reflexivity|].
  cbn [app after]. apply IH.
Qed.

(** The result of a call is that of one step on the iterator the calls
    before it leave. *)
Lemma nth_run (it : I) (pre post : list call) (c : call) :
  nth_error (run it (pre ++ c :: post)) (List.length pre)
  = Some (snd (step (after it pre) c)).
Proof.
  rewrite run_app, nth_error_app2 by (rewrite run_length; lia).
  rewrite run_length, Nat.sub_diag. cbn [run].
  destruct (step (after it pre) c). reflexivity.
Qed.

(** An iterator keeps the laws when [isClosed] is set by [Close] and stops
    [Next], and [ok] (no error recorded) is kept by every call. *)
Variable isClosed : I -> bool.
Variable ok : I -> Prop.

Hypothesis Close_closes : forall it, isClosed (fst (Close it)) = true.
Hypothesis Close_nil : forall it, snd (Close it) = None.
Hypothesis Close_twice :
  forall it, fst (Close (fst (Close it))) = fst (Close it).
Hypothesis Next_closed :
  forall it, isClosed it = true ->
             snd (Next it) = Returns false /\ isClosed (fst (Next it)) = true.
Hypothesis Err_ok : forall it, ok it -> Err it = None.
Hypothesis Next_ok : forall it, ok it -> ok (fst (Next it)).
Hypothesis Close_ok : forall it, ok it -> ok (fst (Close it)).

Lemma step_closed (it : I) (c : call) :
  isClosed it = true -> isClosed (fst (step it c)) = true.
Proof.
  intros Hc. destruct c; cbn [step].
  - destruct (Next it) as [it' r] eqn:E. cbn [fst].
    apply Next_closed in Hc. rewrite E in Hc. apply Hc.
  - exact Hc.
  - exact Hc.
  - destruct (Close it) as [it' e] eqn:E. cbn [fst].
    pose proof (Close_closes it) as Hcl. rewrite E in Hcl. exact Hcl.
Qed.

Lemma after_closed (it : I) (calls : list call) :
  isClosed it = true -> isClosed (after it calls) = true.
Proof.
  revert it. induction calls as [|c rest IH]; intros it Hc; [exact Hc|].
  cbn [after]. apply IH, step_closed, Hc.
Qed.

Lemma after_ok (it : I) (calls : list call) : ok it -> ok (after it calls).
Proof.
  revert it. induction calls as [|c rest IH]; intros it Hok; [exact Hok|].
  cbn [after]. apply IH. destruct c; cbn [step].
  - destruct (Next it) as [it' r] eqn:E. cbn [fst].
    apply Next_ok in Hok. rewrite E in Hok. exact Hok.
  - exact Hok.
  - exact Hok.
  - destruct (Close it) as [it' e] eqn:E. cbn [fst].
    apply Close_ok in Hok. rewrite E in Hok. exact Hok.
Qed.

Lemma laws_hold (it : I) : ok it -> laws it.
Proof.
  intros Hok. unfold laws. repeat split.
  - intros pre mid post.
    replace (pre ++ CallClose :: mid ++ CallNext :: post)%list
      with ((pre ++ CallClose :: mid) ++ CallNext :: post)%list
      by (rewrite <- app_assoc; reflexivity).
    replace (List.length pre + S (List.length mid))%nat
      with (List.length (pre ++ CallClose :: mid))
      by (rewrite length_app; reflexivity).
    rewrite nth_run, after_app. cbn [after step].
    set (closedIt := fst (let '(it', e) := Close (after it pre) in
                          (it', SawClose e))).
    assert (Hc : isClosed (after closedIt mid) = true).
    { apply after_closed. unfold closedIt.
      pose proof (Close_closes (after it pre)) as Hcl.
      destruct (Close (after it pre)). exact Hcl. }
    apply Next_closed in Hc. destruct (Next (after closedIt mid)) as [it' r].
    cbn [snd] in *. destruct Hc as [-> _]. reflexivity.
  - intros pre post. rewrite nth_run. cbn [step].
    pose proof (Close_nil (after it pre)) as Hn.
    destruct (Close (after it pre)) as [it' e]. cbn [snd] in *.
    rewrite Hn. reflexivity.
  - intros calls. apply Close_twice.
  - intros pre post. rewrite nth_run. cbn [step snd].
    rewrite Err_ok; [reflexivity|]. apply after_ok, Hok.
Qed.

End IteratorLaws.

Section ConcreteIterators.
Import Go Errors Iterator.

Lemma SegmentFileIterator_laws (it : SegmentFileIterator.t) :
  SegmentFileIterator.err it = None -> laws it.
Proof.
  apply (laws_hold SegmentFileIterator.closed
                   (fun it => SegmentFileIterator.err it = None)).
  - reflexivity.
  - reflexivity.
  - reflexivity.
  - intros s Hc. cbn [Next SegmentFileIterator_ObjectIterator].
    unfold SegmentFileIterator.Next. rewrite Hc. split; [reflexivity|exact Hc].
  - intros s Hs. exact Hs.
  - intros s Hs. cbn [Next SegmentFileIterator_ObjectIterator].
    unfold SegmentFileIterator.Next.
    destruct (SegmentFileIterator.closed s); [exact Hs|].
    destruct (_ >=? _)%Z; [exact Hs|].
    destruct (at_index _ _); exact Hs.
  - intros s Hs. exact Hs.
Qed.

Lemma ListingIterator_laws (it : ListingIterator.t) :
  ListingIterator.err it = None -> laws it.
Proof.
  apply (laws_hold ListingIterator.closed
                   (fun it => ListingIterator.err it = None)).
  - reflexivity.
  - reflexivity.
  - reflexivity.
  - intros s Hc. cbn [Next ListingIterator_ObjectIterator].
    unfold ListingIterator.Next. rewrite Hc. split; [reflexivity|exact Hc].
  - intros s Hs. exact Hs.
  - intros s Hs. cbn [Next ListingIterator_ObjectIterator].
    unfold ListingIterator.Next.
    destruct (ListingIterator.closed s); [exact Hs|].
    destruct (_ >=? _)%Z; [exact Hs|].
    destruct (at_index _ _); exact Hs.
  - intros s Hs. exact Hs.
Qed.

Lemma EmptyIterator_laws (it : EmptyIterator.t) : laws it.
Proof.
  apply (laws_hold EmptyIterator.closed (fun _ => True)); try reflexivity;
    try (intros; exact Logic.I).
  intros s Hc. split; [reflexivity|exact Hc].
Qed.

End ConcreteIterators.

(** C6: for each of the three iterator types, whatever the constructor is
    given and whatever the sequence of calls: a [Next] made after a [Close]
    returns false; every [Close] returns nil and a repeated [Close] changes
    nothing more; every [Err] returns (nil), also after exhaustion and after
    [Close]. *)
Theorem iterators_keep_the_laws :
  (forall (dataset : string) (segment : Iterator.SegmentRef)
          (files : Go.slice Validate.FileRef),
      Iterator.laws (Iterator.SegmentFileIterator.New dataset segment files))
  /\ (forall (dataset : string) (segment : Iterator.SegmentRef)
             (keys : Go.slice Iterator.ObjectKey),
         Iterator.laws (Iterator.ListingIterator.New dataset segment keys))
  /\ Iterator.laws Iterator.EmptyIterator.New.
Proof.
  split; [|split].
  - intros. apply SegmentFileIterator_laws. reflexivity.
  - intros. apply ListingIterator_laws. reflexivity.
  - apply EmptyIterator_laws.
Qed.

(** ** SegmentFileIterator: the files in slice order *)

Section SegmentFileOrder.
Import Go Errors Iterator.
Import SegmentFileIterator.

(** The bounds of [int], as numerals. *)
Ltac int_range :=
  change (2 ^ 63)%N with 9223372036854775808%N in *;
  change (2 ^ 63)%Z with 9223372036854775808%Z in *.

Lemma wrap_int_small (z : Z) :
  (- 2 ^ 63 <= z < 2 ^ 63)%Z -> wrap_int z = z.
Proof. intros Hz. unfold wrap_int. rewrite Z.mod_small; lia. Qed.

Lemma afterNext_succ (n : N) (it : t) :
  afterNext (N.succ n) it = advance (afterNext n it).
Proof. unfold afterNext. apply N.iter_succ. Qed.

(** [Next] on an iterator that is not closed, away from the end of the
    range of [int]. *)
Lemma Next_open (s : t) :
  closed s = false ->
  (- 2 ^ 63 <= index s + 1 < 2 ^ 63)%Z ->
  SegmentFileIterator.Next s
  = let s' := set_index s (index s + 1) in
    if (index s + 1 >=? len (files s))%Z then (s', Returns false)
    else match at_index (files s) (index s + 1) with
         | Panics => (s', Panics)
         | Returns f =>
             (set_current s' {| Dataset := dataset s; Segment := segment s;
                                Path := Validate.Path f |}, Returns true)
         end.
Proof.
  intros Hc Hi. unfold SegmentFileIterator.Next.
  rewrite Hc, (wrap_int_small _ Hi). reflexivity.
Qed.

Lemma at_index_in_range {A} (s : slice A) (i : Z) :
  (0 <= i < len s)%Z ->
  exists a, nth_error (elems s) (Z.to_nat i) = Some a /\ at_index s i = Returns a.
Proof.
  intros Hi. unfold at_index.
  replace ((i <? 0)%Z || (i >=? len s)%Z) with false
    by (symmetry; apply orb_false_iff; split; lia).
  destruct (nth_error (elems s) (Z.to_nat i)) as [a|] eqn:E; [eauto|].
  apply nth_error_None in E. unfold len in Hi. lia.
Qed.

Variable dataset0 : string.
Variable segment0 : SegmentRef.
Variable files0 : slice Validate.FileRef.

(** What the calls of [Next] leave of the constructor's arguments, as long
    as the index has not left the range of [int]. *)
Lemma afterNext_fields (n : N) :
  (n <= 2 ^ 63)%N ->
  let s := afterNext n (New dataset0 segment0 files0) in
  index s = (Z.of_N n - 1)%Z /\ closed s = false /\ files s = files0
  /\ dataset s = dataset0 /\ segment s = segment0.
Proof.
  induction n as [|n IH] using N.peano_ind; intros Hn.
  - cbn. repeat split; reflexivity.
  - assert (Hlt : (Z.of_N n < 2 ^ 63)%Z).
    { int_range. lia. }
    destruct IH as (Hi & Hc & Hf & Hd & Hs); [int_range; lia|].
    cbv zeta. rewrite afterNext_succ.
    unfold advance. cbn [Next SegmentFileIterator_ObjectIterator].
    rewrite Next_open; [|exact Hc|rewrite Hi; lia].
    cbv zeta. rewrite Hi, Hf, Hd, Hs, N2Z.inj_succ.
    destruct (_ >=? _)%Z; [cbn; repeat split; first [assumption|lia]|].
    destruct (at_index _ _); cbn; repeat split; first [assumption|lia].
Qed.

Lemma nextResult_in_range (n : N) :
  (Z.of_N n < 2 ^ 63)%Z ->
  nextResult n (New dataset0 segment0 files0)
  = Returns (Z.of_N n <? len files0)%Z
  /\ match nth_error (elems files0) (N.to_nat n) with
     | Some f =>
         Ref (afterNext (N.succ n) (New dataset0 segment0 files0))
         = refTo dataset0 segment0 f
     | None => (len files0 <= Z.of_N n)%Z
     end.
Proof.
  intros Hn.
  assert (Hle : (n <= 2 ^ 63)%N).
  { int_range. lia. }
  destruct (afterNext_fields n Hle) as (Hi & Hc & Hf & Hd & Hs).
  rewrite afterNext_succ. unfold nextResult, advance.
  cbn [Next Ref SegmentFileIterator_ObjectIterator].
  rewrite Next_open; [|exact Hc|rewrite Hi; lia].
  cbv zeta. rewrite Hi, Hf, Hd, Hs.
  replace (Z.of_N n - 1 + 1)%Z with (Z.of_N n) by lia.
  destruct (Z.of_N n <? len files0)%Z eqn:Hlt.
  - replace (Z.of_N n >=? len files0)%Z with false by lia.
    destruct (at_index_in_range files0 (Z.of_N n)) as (f & Hnth & Hat); [lia|].
    rewrite <- Z_N_nat, N2Z.id in Hnth. rewrite Hat, Hnth. split; reflexivity.
  - replace (Z.of_N n >=? len files0)%Z with true by lia.
    split; [reflexivity|].
    destruct (nth_error (elems files0) (N.to_nat n)) eqn:E; [|lia].
    assert (N.to_nat n < List.length (elems files0))%nat
      by (apply nth_error_Some; congruence).
    unfold len in Hlt. lia.
Qed.

End SegmentFileOrder.

(** While the index has not run through the range of [int], the property of
    C9 holds: on an iterator that is never closed, the call of [Next] that
    follows [n] earlier ones, for [n] below [2^63], returns true when [n] is
    less than the number of files and false otherwise; after a call that
    returns true, [Ref] is the reference with the constructor's dataset and
    segment and the path of the file at index [n]. *)
Theorem SegmentFileIterator_yields_files_in_order
        (dataset : string) (segment : Iterator.SegmentRef)
        (files : Go.slice Validate.FileRef) (n : N) :
  (Z.of_N n < 2 ^ 63)%Z ->
  Iterator.nextResult n (Iterator.SegmentFileIterator.New dataset segment files)
  = Go.Returns (Z.of_N n <? Go.len files)%Z
  /\ match nth_error (Go.elems files) (N.to_nat n) with
     | Some f =>
         Iterator.Ref
           (Iterator.afterNext (N.succ n)
              (Iterator.SegmentFileIterator.New dataset segment files))
         = Iterator.SegmentFileIterator.refTo dataset segment f
     | None => (Go.len files <= Z.of_N n)%Z
     end.
Proof. apply nextResult_in_range. Qed.

Lemma SegmentFileIterator_yields_files_in_order_witness :
  (Z.of_N 1 < 2 ^ 63)%Z
  /\ Iterator.nextResult 1
       (Iterator.SegmentFileIterator.New "mydata" {| Iterator.ID := "snap-1" |}
          (Some [ {| Validate.Path := "data/file1.json";
                     Validate.SizeBytes := 100; Validate.Checksum := "" |};
                  {| Validate.Path := "data/file2.json";
                     Validate.SizeBytes := 200; Validate.Checksum := "" |} ]))
     = Go.Returns true.
Proof.
  split; [reflexivity|].
  apply (SegmentFileIterator_yields_files_in_order
           "mydata" {| Iterator.ID := "snap-1" |}
           (Some [ {| Validate.Path := "data/file1.json";
                      Validate.SizeBytes := 100; Validate.Checksum := "" |};
                   {| Validate.Path := "data/file2.json";
                      Validate.SizeBytes := 200; Validate.Checksum := "" |} ])
           1%N).
  reflexivity.
Defined.

(** One more than the largest [int] is the smallest [int]. *)
Lemma wrap_int_past_max :
  Go.wrap_int (Z.of_N (2 ^ 63) - 1 + 1) = (- 2 ^ 63)%Z.
Proof. vm_compute. reflexivity. Qed.

(** [Next] on an open iterator over no file whose index is the largest
    [int]: the index wraps and the index expression panics. *)
Lemma Next_past_max (s : Iterator.SegmentFileIterator.t) :
  Iterator.SegmentFileIterator.closed s = false ->
  Iterator.SegmentFileIterator.index s = (Z.of_N (2 ^ 63) - 1)%Z ->
  Iterator.SegmentFileIterator.files s = Some [] ->
  snd (Iterator.SegmentFileIterator.Next s) = Go.Panics.
Proof.
  intros Hc Hi Hf. unfold Iterator.SegmentFileIterator.Next. rewrite Hc.
  cbn [Iterator.SegmentFileIterator.set_index
         Iterator.SegmentFileIterator.index
         Iterator.SegmentFileIterator.files].
  rewrite Hi, Hf, wrap_int_past_max.
  vm_compute. reflexivity.
Qed.

Lemma Panics_not_Returns {A : Type} (r : Go.outcome A) (a : A) :
  r = Go.Panics -> r <> Go.Returns a.
Proof. intros -> H. discriminate H. Qed.

(** C9, at the call of [Next] that follows [2^63] others: on an iterator
    over no file, never closed, the first [2^63] calls return false and leave
    the index at the largest [int], since [Next] increments it also when the
    iterator is exhausted; the next call increments it to the smallest [int],
    which passes the test for exhaustion, and the index expression panics,
    where the contract of [ObjectIterator] has [Next] return false after
    exhaustion. *)
Lemma SegmentFileIterator_Next_panics_when_index_wraps :
  Iterator.nextResult (2 ^ 63)
    (Iterator.SegmentFileIterator.New "mydata" {| Iterator.ID := "snap-1" |}
       (Some []))
  = Go.Panics
  /\ Iterator.nextResult (2 ^ 63)
       (Iterator.SegmentFileIterator.New "mydata" {| Iterator.ID := "snap-1" |}
          (Some []))
     <> Go.Returns false.
Proof.
  destruct (afterNext_fields "mydata" {| Iterator.ID := "snap-1" |} (Some [])
              (2 ^ 63)%N (N.le_refl _)) as (Hi & Hc & Hf & _).
  pose proof (Next_past_max _ Hc Hi Hf) as Hp.
  split; [exact Hp|]. apply Panics_not_Returns. exact Hp.
Qed.

(** ** StoreAdapter *)

(** C8: on a store without the methods of [RangeReadStore], [ReadRange] and
    [ReaderAt] of the adapter return [ErrRangeReadNotSupported] for every key,
    offset and length, with no data and without any call on the store (no
    download stands in for the range read), and [SupportsRangeReads] is
    false. *)
Theorem StoreAdapter_range_reads_not_supported (store : Store.t) :
  Store.asRangeReadStore store = None ->
  (forall (key : Adapter.ObjectKey) (offset length : Z),
      Adapter.ReadRange (Adapter.NewStoreAdapter store) key offset length
      = ((None, Some Errors.ErrRangeReadNotSupported), []))
  /\ (forall key : Adapter.ObjectKey,
         Adapter.ReaderAt (Adapter.NewStoreAdapter store) key
         = ((None, Some Errors.ErrRangeReadNotSupported), []))
  /\ Adapter.SupportsRangeReads (Adapter.NewStoreAdapter store) = false.
Proof.
  intros Hnone.
  unfold Adapter.ReadRange, Adapter.ReaderAt, Adapter.SupportsRangeReads,
    Adapter.NewStoreAdapter.
  rewrite Hnone. cbn [Adapter.rangeReadStore].
  repeat split.
Qed.

Lemma StoreAdapter_range_reads_not_supported_witness :
  Store.asRangeReadStore Store.mockStore = None
  /\ Adapter.ReadRange (Adapter.NewStoreAdapter Store.mockStore)
       "datasets/ds/snapshots/snap/data/file.json" 0 16
     = ((None, Some Errors.ErrRangeReadNotSupported), [])
  /\ Adapter.SupportsRangeReads (Adapter.NewStoreAdapter Store.mockStore) = false.
Proof.
  split; [reflexivity|].
  split;
    apply (StoreAdapter_range_reads_not_supported Store.mockStore);
    reflexivity.
Defined.

(** C10, as the code has it: [StoreAdapter.List] makes one call of the
    store's [List].  When the store returns an error, the adapter returns
    that error with the zero page, whatever the store listed beside it.  When
    the store returns no error, neither does the adapter, and the page holds
    the first [Limit] keys with [HasMore] set when [Limit] is positive and
    there are more than [Limit] keys, and all the keys with [HasMore] unset
    in every other case. *)
Theorem StoreAdapter_List_applies_limit_or_returns_error
        (store : Store.t) (prefix : Adapter.ObjectKey)
        (opts : Adapter.ListOptions) :
  match Store.List store prefix with
  | (_, Some e) =>
      Adapter.List (Adapter.NewStoreAdapter store) prefix opts
      = ((Adapter.zeroPage, Some e), [Store.CalledList prefix])
  | (paths, None) =>
      exists page : Adapter.ListPage,
        Adapter.List (Adapter.NewStoreAdapter store) prefix opts
        = ((page, None), [Store.CalledList prefix])
        /\ if ((Adapter.Limit opts >? 0)
               && (Go.len paths >? Adapter.Limit opts))%Z
           then Go.elems (Adapter.Keys page)
                = firstn (Z.to_nat (Adapter.Limit opts)) (Go.elems paths)
                /\ Go.len (Adapter.Keys page) = Adapter.Limit opts
                /\ Adapter.HasMore page = true
           else Go.elems (Adapter.Keys page) = Go.elems paths
                /\ Adapter.HasMore page = false
  end.
Proof.
  assert (Hstore : Adapter.store (Adapter.NewStoreAdapter store) = store).
  { unfold Adapter.NewStoreAdapter.
    destruct (Store.asRangeReadStore store); reflexivity. }
  unfold Adapter.List. rewrite Hstore.
  destruct (Store.List store prefix) as [paths [e|]]; [reflexivity|].
  change (Go.len (Some (Go.elems paths))) with (Go.len paths).
  destruct ((Adapter.Limit opts >? 0) && (Go.len paths >? Adapter.Limit opts))%Z
    eqn:Hcond.
  - eexists. split; [reflexivity|]. cbn [Adapter.Keys Adapter.HasMore Go.elems].
    repeat split.
    apply andb_true_iff in Hcond as [Hpos Hmore].
    apply Z.gtb_lt in Hpos, Hmore.
    unfold Go.len, Adapter.ObjectKey in *. cbn [Go.elems].
    assert (Hle : (Z.to_nat (Adapter.Limit opts)
                   <= List.length (Go.elems paths))%nat) by lia.
    rewrite (firstn_length_le _ Hle). lia.
  - eexists. split; [reflexivity|]. split; reflexivity.
Qed.

(** C10 as stated fails on a store whose [List] returns keys and an error
    together: with no limit the claim has the adapter return all the keys of
    the listing, and the adapter returns the zero page, with no key, and the
    error. *)
Lemma StoreAdapter_List_drops_keys_beside_error :
  Store.List (Store.failingListStore (Some ["obj1"; "obj2"])
                                     (Errors.StoreError "list"))
             "obj"
  = (Some ["obj1"; "obj2"], Some (Errors.StoreError "list"))
  /\ Adapter.List
       (Adapter.NewStoreAdapter
          (Store.failingListStore (Some ["obj1"; "obj2"])
                                  (Errors.StoreError "list")))
       "obj" {| Adapter.Limit := 0 |}
     = ((Adapter.zeroPage, Some (Errors.StoreError "list")),
        [Store.CalledList "obj"])
  /\ Go.elems
       (Adapter.Keys
          (fst (fst (Adapter.List
                       (Adapter.NewStoreAdapter
                          (Store.failingListStore (Some ["obj1"; "obj2"])
                                                  (Errors.StoreError "list")))
                       "obj" {| Adapter.Limit := 0 |}))))
     <> ["obj1"; "obj2"].
Proof.
  split; [reflexivity|]. split; [reflexivity|].
  cbn. discriminate.
Qed.

(* ===================================================================== *)
(** * Part III: further properties of the code                             *)
(* ===================================================================== *)

(** ** DefaultLayout: parsing, prefixes, data paths *)

(** X1: the two parsers agree with [IsManifest].  On a path [IsManifest]
    accepts they return non-empty, slash-free IDs from which the path is put
    together again; on every other path both return the empty string. *)
Theorem parsers_agree_with_IsManifest (p : string) :
  let d := Layout.ParseDatasetID p in
  let s := Layout.ParseSegmentID p in
  if Layout.IsManifest p
  then d <> "" /\ s <> ""
       /\ GoStrings.ContainsByte d "/" = false
       /\ GoStrings.ContainsByte s "/" = false
       /\ p = "datasets/" ++ d ++ "/snapshots/" ++ s ++ "/manifest.json"
  else d = "" /\ s = "".
Proof.
  cbv zeta. unfold Layout.IsManifest, Layout.ParseDatasetID, Layout.ParseSegmentID.
  destruct (Layout.isValidManifestPath p) eqn:Hvalid; [|split; reflexivity].
  apply isValidManifestPath_iff in Hvalid as (d & s & Hd & Hs & Hsplit).
  pose proof (Split_pieces_without_sep "/" p) as Hfree.
  pose proof (Join_Split "/" p) as Hjoin.
  cbn [negb]. change GoPath.slash with "/"%char.
  rewrite Hsplit in *. cbn [Layout.index nth].
  inversion Hfree as [|? ? _ H1]; subst. inversion H1 as [|? ? Hdf H2]; subst.
  inversion H2 as [|? ? _ H3]; subst. inversion H3 as [|? ? Hsf _]; subst.
  repeat split; try assumption; try (symmetry; exact Hjoin).
Qed.

(** X2: for IDs that are valid and neither [.] nor [..], the prefixes and the
    manifest path nest: the segments of a dataset are listed under the
    datasets prefix, and a manifest lies under the prefix of its dataset's
    segments. *)
Theorem manifest_lies_under_prefixes (d s : string) :
  Layout.validID d = true -> Layout.validID s = true ->
  (d =? ".")%string = false -> (d =? "..")%string = false ->
  (s =? ".")%string = false -> (s =? "..")%string = false ->
  Layout.SegmentsPrefix d = Layout.DatasetsPrefix ++ d ++ "/snapshots/"
  /\ Layout.ManifestPath d s = Layout.SegmentsPrefix d ++ s ++ "/manifest.json".
Proof.
  intros Hvd Hvs Hd1 Hd2 Hs1 Hs2.
  apply String.eqb_neq in Hd1, Hd2, Hs1, Hs2.
  destruct (validID_slash_free d Hvd) as [Hd Hds].
  assert (Hprefix : Layout.SegmentsPrefix d
                    = Layout.DatasetsPrefix ++ d ++ "/snapshots/").
  { unfold Layout.SegmentsPrefix, GoPath.Join.
    assert (Hkept : filter (fun e => negb (e =? "")%string)
                      [Layout.defaultDatasetsDir; d; Layout.defaultSnapshotsDir]
                    = ["datasets"; d; "snapshots"]).
    { apply String.eqb_neq in Hd. simpl. rewrite Hd. reflexivity. }
    cbv zeta. unfold Layout.DatasetID. rewrite Hkept.
    rewrite Clean_plain;
      [|discriminate|repeat constructor; solve [assumption | discriminate]].
    unfold Layout.DatasetsPrefix, Layout.defaultDatasetsDir. simpl.
    rewrite !string_app_assoc. reflexivity. }
  split; [exact Hprefix|].
  destruct (ManifestPath_round_trip d s Hvd Hvs Hd1 Hd2 Hs1 Hs2) as [-> _].
  rewrite Hprefix. unfold Layout.DatasetsPrefix, Layout.defaultDatasetsDir.
  simpl. rewrite !string_app_assoc. reflexivity.
Qed.

Lemma manifest_lies_under_prefixes_witness :
  Layout.validID "events" = true
  /\ Layout.SegmentsPrefix "events" = "datasets/events/snapshots/"
  /\ Layout.ManifestPath "events" "snap-1"
     = Layout.SegmentsPrefix "events" ++ "snap-1" ++ "/manifest.json".
Proof.
  split; [reflexivity|].
  apply (manifest_lies_under_prefixes "events" "snap-1"); reflexivity.
Defined.

Section PartitionPath.
Import Layout.

Lemma findDataIdx_none (parts : list string) (i : Z) :
  forallb notData parts = true -> findDataIdx parts i = (-1)%Z.
Proof.
  revert i. induction parts as [|c rest IH]; intros i H; [reflexivity|].
  cbn [forallb] in H. apply andb_true_iff in H as [Hc Hrest].
  unfold notData in Hc. apply negb_true_iff in Hc.
  cbn [findDataIdx]. rewrite Hc. apply IH, Hrest.
Qed.

Lemma findDataIdx_first (before rest : list string) (i : Z) :
  forallb notData before = true ->
  findDataIdx (before ++ defaultDataDir :: rest) i
  = (i + Z.of_nat (List.length before))%Z.
Proof.
  revert i. induction before as [|c before IH]; intros i H.
  - cbn [app findDataIdx List.length]. rewrite String.eqb_refl. lia.
  - cbn [forallb] in H. apply andb_true_iff in H as [Hc Hrest].
    unfold notData in Hc. apply negb_true_iff in Hc.
    cbn [app findDataIdx List.length]. rewrite Hc, (IH _ Hrest). lia.
Qed.

Lemma removelast_firstn_pred {A} (l : list A) :
  firstn (Nat.pred (List.length l)) l = removelast l.
Proof.
  induction l as [|a l IH]; [reflexivity|].
  destruct l as [|b l]; [reflexivity|].
  cbn [List.length Nat.pred firstn removelast] in *. rewrite IH. reflexivity.
Qed.

End PartitionPath.

(** X3: a path with no component named [data] has no partition:
    [ExtractPartitionPath] returns the empty string. *)
Theorem ExtractPartitionPath_without_data_dir (p : string) :
  forallb Layout.notData (GoStrings.Split p "/") = true ->
  Layout.ExtractPartitionPath p = "".
Proof.
  intros H. unfold Layout.ExtractPartitionPath.
  change GoPath.slash with "/"%char. cbv zeta.
  rewrite (findDataIdx_none _ 0%Z H). reflexivity.
Qed.

Lemma ExtractPartitionPath_without_data_dir_witness :
  Layout.ExtractPartitionPath "datasets/ds/snapshots/snap/file.json" = "".
Proof.
  apply (ExtractPartitionPath_without_data_dir
           "datasets/ds/snapshots/snap/file.json").
  reflexivity.
Defined.

(** X4: what [ExtractPartitionPath] returns on any other path: when the
    first component named [data] is followed by the components [rest], the
    result is [rest] without its last component (the file name), joined by
    slashes; so it is empty when [data] is the last component or is followed
    by the file name alone. *)
Theorem ExtractPartitionPath_after_first_data
        (p : string) (before rest : list string) :
  GoStrings.Split p "/" = (before ++ "data" :: rest)%list ->
  forallb Layout.notData before = true ->
  Layout.ExtractPartitionPath p = GoStrings.Join (removelast rest) "/".
Proof.
  intros Hsplit Hbefore. unfold Layout.ExtractPartitionPath.
  change GoPath.slash with "/"%char. cbv zeta. rewrite Hsplit.
  change "data" with Layout.defaultDataDir.
  rewrite (findDataIdx_first before rest 0%Z Hbefore).
  rewrite length_app.
  destruct rest as [|r rest'].
  - cbn [List.length].
    replace ((0 + Z.of_nat (List.length before) <? 0)%Z
             || (0 + Z.of_nat (List.length before)
                 >=? Z.of_nat (List.length before + 1) - 1)%Z)
      with true
      by (symmetry; apply orb_true_iff; right; apply Z.geb_le; lia).
    reflexivity.
  - set (n := List.length before).
    change (List.length (Layout.defaultDataDir :: r :: rest'))
      with (S (List.length (r :: rest'))).
    set (k := List.length (r :: rest')).
    assert (Hk : (1 <= k)%nat) by (unfold k; cbn [List.length]; lia).
    replace ((0 + Z.of_nat n <? 0)%Z
             || (0 + Z.of_nat n >=? Z.of_nat (n + S k) - 1)%Z)
      with false
      by (symmetry; apply orb_false_iff; split;
          [apply Z.ltb_ge; lia|rewrite Z.geb_leb; apply Z.leb_gt; lia]).
    unfold Layout.slice.
    replace (Z.to_nat (Z.of_nat (n + S k) - 1 - (0 + Z.of_nat n + 1)))
      with (Nat.pred k) by lia.
    replace (Z.to_nat (0 + Z.of_nat n + 1)) with (n + 1)%nat by lia.
    assert (Hskip : skipn (n + 1) (before ++ Layout.defaultDataDir :: r :: rest')
                    = r :: rest').
    { unfold n. rewrite skipn_app, skipn_all2 by lia.
      replace (List.length before + 1 - List.length before)%nat with 1%nat by lia.
      reflexivity. }
    rewrite Hskip. unfold k. rewrite removelast_firstn_pred.
    destruct (removelast (r :: rest')); reflexivity.
Qed.

Lemma ExtractPartitionPath_after_first_data_witness :
  Layout.ExtractPartitionPath
    "datasets/ds/snapshots/snap/data/day=2024-01-01/hour=12/file.json"
  = "day=2024-01-01/hour=12".
Proof.
  apply (ExtractPartitionPath_after_first_data
           "datasets/ds/snapshots/snap/data/day=2024-01-01/hour=12/file.json"
           ["datasets"; "ds"; "snapshots"; "snap"]
           ["day=2024-01-01"; "hour=12"; "file.json"]);
    reflexivity.
Defined.

(** X5: a canonical data path is never taken for a manifest, whatever the
    IDs, the partition and the file name: [IsManifest] rejects it and both
    parsers return the empty string. *)
Theorem data_paths_are_not_manifests
        (d s f : string) (frag : list string) :
  Layout.IsManifest (Layout.dataPath d s frag f) = false
  /\ Layout.ParseDatasetID (Layout.dataPath d s frag f) = ""
  /\ Layout.ParseSegmentID (Layout.dataPath d s frag f) = "".
Proof.
  assert (Hinvalid : Layout.isValidManifestPath (Layout.dataPath d s frag f) = false).
  { unfold Layout.isValidManifestPath. cbv zeta.
    rewrite Split_length. unfold Layout.dataPath.
    rewrite !CountByte_app.
    change (GoStrings.CountByte "datasets/" GoPath.slash) with 1%nat.
    change (GoStrings.CountByte "/snapshots/" GoPath.slash) with 2%nat.
    change (GoStrings.CountByte "/data/" GoPath.slash) with 2%nat.
    match goal with
    | |- (if negb (?n =? 5)%nat then _ else _) = _ =>
        replace (n =? 5)%nat with false by (symmetry; apply Nat.eqb_neq; lia)
    end.
    reflexivity. }
  unfold Layout.IsManifest, Layout.ParseDatasetID, Layout.ParseSegmentID.
  rewrite Hinvalid. repeat split.
Qed.

(** ** Iterators: order of the listing, the reference shown, release *)

Section AnyIterator.
Import Iterator.
Context {I : Type} `{ObjectIterator I}.

Lemma afterNext_succ_any (n : N) (it : I) :
  afterNext (N.succ n) it = advance (afterNext n it).
Proof. unfold afterNext. apply N.iter_succ. Qed.

(** What every call keeps is kept by every sequence of calls. *)
Lemma after_keeps (P : I -> Prop) (it : I) (calls : list call) :
  (forall s c, P s -> P (fst (step s c))) -> P it -> P (after it calls).
Proof.
  intros Hstep. revert it.
  induction calls as [|c rest IH]; intros it Hit; [exact Hit|].
  cbn [after]. apply IH, Hstep, Hit.
Qed.

End AnyIterator.

Section ListingOrder.
Import Go Errors Iterator.
Import ListingIterator.

Lemma Listing_Next_open (s : t) :
  closed s = false ->
  (- 2 ^ 63 <= index s + 1 < 2 ^ 63)%Z ->
  ListingIterator.Next s
  = let s' := set_index s (index s + 1) in
    if (index s + 1 >=? len (keys s))%Z then (s', Returns false)
    else match at_index (keys s) (index s + 1) with
         | Panics => (s', Panics)
         | Returns k =>
             (set_current s' {| Dataset := dataset s; Segment := segment s;
                                Path := k |}, Returns true)
         end.
Proof.
  intros Hc Hi. unfold ListingIterator.Next.
  rewrite Hc, (wrap_int_small _ Hi). reflexivity.
Qed.

Variable dataset0 : string.
Variable segment0 : SegmentRef.
Variable keys0 : slice ObjectKey.

Lemma Listing_afterNext_fields (n : N) :
  (n <= 2 ^ 63)%N ->
  let s := afterNext n (New dataset0 segment0 keys0) in
  index s = (Z.of_N n - 1)%Z /\ closed s = false /\ keys s = keys0
  /\ dataset s = dataset0 /\ segment s = segment0.
Proof.
  induction n as [|n IH] using N.peano_ind; intros Hn.
  - cbn. repeat split; reflexivity.
  - change (2 ^ 63)%N with 9223372036854775808%N in *.
    assert (Hlt : (Z.of_N n < 2 ^ 63)%Z) by lia.
    destruct IH as (Hi & Hc & Hf & Hd & Hs); [lia|].
    cbv zeta. rewrite afterNext_succ_any.
    unfold advance. cbn [Next ListingIterator_ObjectIterator].
    rewrite Listing_Next_open; [|exact Hc|rewrite Hi; lia].
    cbv zeta. rewrite Hi, Hf, Hd, Hs, N2Z.inj_succ.
    destruct (_ >=? _)%Z; [cbn; repeat split; first [assumption|lia]|].
    destruct (at_index _ _); cbn; repeat split; first [assumption|lia].
Qed.

Lemma Listing_nextResult_in_range (n : N) :
  (Z.of_N n < 2 ^ 63)%Z ->
  nextResult n (New dataset0 segment0 keys0)
  = Returns (Z.of_N n <? len keys0)%Z
  /\ match nth_error (elems keys0) (N.to_nat n) with
     | Some k =>
         Ref (afterNext (N.succ n) (New dataset0 segment0 keys0))
         = {| Dataset := dataset0; Segment := segment0; Path := k |}
     | None => (len keys0 <= Z.of_N n)%Z
     end.
Proof.
  intros Hn.
  assert (Hle : (n <= 2 ^ 63)%N).
  { change (2 ^ 63)%N with 9223372036854775808%N. lia. }
  destruct (Listing_afterNext_fields n Hle) as (Hi & Hc & Hf & Hd & Hs).
  rewrite afterNext_succ_any. unfold nextResult, advance.
  cbn [Next Ref ListingIterator_ObjectIterator].
  rewrite Listing_Next_open; [|exact Hc|rewrite Hi; lia].
  cbv zeta. rewrite Hi, Hf, Hd, Hs.
  replace (Z.of_N n - 1 + 1)%Z with (Z.of_N n) by lia.
  destruct (Z.of_N n <? len keys0)%Z eqn:Hlt.
  - apply Z.ltb_lt in Hlt.
    replace (Z.of_N n >=? len keys0)%Z with false
      by (symmetry; rewrite Z.geb_leb; apply Z.leb_gt; lia).
    destruct (at_index_in_range keys0 (Z.of_N n)) as (k & Hnth & Hat); [lia|].
    rewrite <- Z_N_nat, N2Z.id in Hnth. rewrite Hat, Hnth. split; reflexivity.
  - apply Z.ltb_ge in Hlt.
    replace (Z.of_N n >=? len keys0)%Z with true
      by (symmetry; apply Z.geb_le; lia).
    split; [reflexivity|].
    destruct (nth_error (elems keys0) (N.to_nat n)) eqn:E; [|lia].
    assert (N.to_nat n < List.length (elems keys0))%nat
      by (apply nth_error_Some; congruence).
    unfold len in Hlt. lia.
Qed.

End ListingOrder.

(** X6: a [ListingIterator] that is never closed yields the keys of the
    listing once each, in the order of the slice: the call of [Next] that
    follows [n] earlier ones, for [n] below [2^63], returns true exactly when
    [n] is less than the number of keys, and [Ref] then holds the
    constructor's dataset and segment and the key at index [n] as path. *)
Theorem ListingIterator_yields_keys_in_order
        (dataset : string) (segment : Iterator.SegmentRef)
        (keys : Go.slice Iterator.ObjectKey) (n : N) :
  (Z.of_N n < 2 ^ 63)%Z ->
  Iterator.nextResult n (Iterator.ListingIterator.New dataset segment keys)
  = Go.Returns (Z.of_N n <? Go.len keys)%Z
  /\ match nth_error (Go.elems keys) (N.to_nat n) with
     | Some k =>
         Iterator.Ref
           (Iterator.afterNext (N.succ n)
              (Iterator.ListingIterator.New dataset segment keys))
         = {| Iterator.Dataset := dataset; Iterator.Segment := segment;
              Iterator.Path := k |}
     | None => (Go.len keys <= Z.of_N n)%Z
     end.
Proof. apply Listing_nextResult_in_range. Qed.

Lemma ListingIterator_yields_keys_in_order_witness :
  (Z.of_N 2 < 2 ^ 63)%Z
  /\ Iterator.nextResult 2
       (Iterator.ListingIterator.New "mydata" {| Iterator.ID := "snap-1" |}
          (Some ["obj1"; "obj2"; "obj3"]))
     = Go.Returns true.
Proof.
  split; [reflexivity|].
  apply (ListingIterator_yields_keys_in_order
           "mydata" {| Iterator.ID := "snap-1" |}
           (Some ["obj1"; "obj2"; "obj3"]) 2%N).
  reflexivity.
Defined.

Section ReferenceShown.
Import Go Errors Iterator.
Import SegmentFileIterator.

Lemma last_by_index {A B} (l : list A) (some : A -> B) (none : B) :
  match nth_error l (Nat.pred (List.length l)) with
  | Some a => some a
  | None => none
  end
  = match rev l with
    | a :: _ => some a
    | [] => none
    end.
Proof.
  induction l as [|x l _] using rev_ind; [reflexivity|].
  rewrite rev_app_distr, length_app. cbn [List.length rev app].
  replace (Nat.pred (List.length l + 1)) with (List.length l) by lia.
  rewrite nth_error_app2, Nat.sub_diag by lia. reflexivity.
Qed.

Variable dataset0 : string.
Variable segment0 : SegmentRef.
Variable files0 : slice Validate.FileRef.

(** The reference held after [n] calls of [Next]: the zero reference before
    the first call, then that of the file yielded last. *)
Lemma afterNext_current (n : N) :
  (n <= 2 ^ 63)%N ->
  current (afterNext n (New dataset0 segment0 files0))
  = if (n =? 0)%N then zeroRef
    else match nth_error (elems files0)
                 (Nat.pred (Nat.min (N.to_nat n) (List.length (elems files0)))) with
         | Some f => refTo dataset0 segment0 f
         | None => zeroRef
         end.
Proof.
  induction n as [|n IH] using N.peano_ind; intros Hn; [reflexivity|].
  change (2 ^ 63)%N with 9223372036854775808%N in *.
  assert (Hle : (n <= 2 ^ 63)%N)
    by (change (2 ^ 63)%N with 9223372036854775808%N; lia).
  destruct (afterNext_fields dataset0 segment0 files0 n Hle)
    as (Hi & Hc & Hf & Hd & Hs).
  specialize (IH ltac:(lia)).
  rewrite afterNext_succ_any. unfold advance.
  cbn [Next SegmentFileIterator_ObjectIterator].
  rewrite Next_open; [|exact Hc|rewrite Hi; lia].
  cbv zeta. rewrite Hi, Hf, Hd, Hs.
  replace (Z.of_N n - 1 + 1)%Z with (Z.of_N n) by lia.
  replace (N.succ n =? 0)%N with false by (symmetry; apply N.eqb_neq; lia).
  rewrite N2Nat.inj_succ.
  destruct (Z.of_N n <? len files0)%Z eqn:Hlt.
  - apply Z.ltb_lt in Hlt.
    replace (Z.of_N n >=? len files0)%Z with false
      by (symmetry; rewrite Z.geb_leb; apply Z.leb_gt; lia).
    destruct (at_index_in_range files0 (Z.of_N n)) as (f & Hnth & Hat); [lia|].
    rewrite <- Z_N_nat, N2Z.id in Hnth. rewrite Hat. cbn [fst current set_current].
    unfold len in Hlt.
    rewrite Nat.min_l by lia. cbn [Nat.pred]. rewrite Hnth. reflexivity.
  - apply Z.ltb_ge in Hlt.
    replace (Z.of_N n >=? len files0)%Z with true
      by (symmetry; apply Z.geb_le; lia).
    cbn [fst current set_index]. rewrite IH. unfold len in Hlt.
    rewrite Nat.min_r by lia.
    destruct (N.eqb_spec n 0) as [Hz|Hpos].
    + assert (Hempty : List.length (elems files0) = 0%nat) by lia.
      destruct (elems files0); [reflexivity|discriminate].
    + rewrite Nat.min_r by lia. reflexivity.
Qed.

Lemma Ref_after_exhaustion (n : N) :
  (len files0 <= Z.of_N n <= 2 ^ 63)%Z ->
  Ref (afterNext n (New dataset0 segment0 files0))
  = match rev (elems files0) with
    | f :: _ => refTo dataset0 segment0 f
    | [] => zeroRef
    end.
Proof.
  intros [Hlo Hhi].
  assert (Hle : (n <= 2 ^ 63)%N)
    by (change (2 ^ 63)%N with 9223372036854775808%N; lia).
  cbn [Ref SegmentFileIterator_ObjectIterator]. unfold SegmentFileIterator.Ref.
  rewrite (afterNext_current n Hle). unfold len in Hlo.
  destruct (N.eqb_spec n 0) as [Hz|Hpos].
  - assert (Hempty : List.length (elems files0) = 0%nat) by lia.
    destruct (elems files0); [reflexivity|discriminate].
  - rewrite Nat.min_r by lia. apply last_by_index.
Qed.

End ReferenceShown.

(** X7: once a [SegmentFileIterator] that is never closed is exhausted, [Ref]
    keeps returning the reference to the last file of the slice (the zero
    reference when there is no file), for every later call of [Next] up to
    the [2^63]-th. *)
Theorem SegmentFileIterator_Ref_after_exhaustion
        (dataset : string) (segment : Iterator.SegmentRef)
        (files : Go.slice Validate.FileRef) (n : N) :
  (Go.len files <= Z.of_N n <= 2 ^ 63)%Z ->
  Iterator.Ref
    (Iterator.afterNext n
       (Iterator.SegmentFileIterator.New dataset segment files))
  = match rev (Go.elems files) with
    | f :: _ => Iterator.SegmentFileIterator.refTo dataset segment f
    | [] => Iterator.zeroRef
    end.
Proof. apply Ref_after_exhaustion. Qed.

Lemma SegmentFileIterator_Ref_after_exhaustion_witness :
  (Go.len (Some [ {| Validate.Path := "data/file1.json";
                     Validate.SizeBytes := 100; Validate.Checksum := "" |};
                  {| Validate.Path := "data/file2.json";
                     Validate.SizeBytes := 200; Validate.Checksum := "" |} ])
   <= Z.of_N 5 <= 2 ^ 63)%Z
  /\ Iterator.Path
       (Iterator.Ref
          (Iterator.afterNext 5
             (Iterator.SegmentFileIterator.New
                "mydata" {| Iterator.ID := "snap-1" |}
                (Some [ {| Validate.Path := "data/file1.json";
                           Validate.SizeBytes := 100; Validate.Checksum := "" |};
                        {| Validate.Path := "data/file2.json";
                           Validate.SizeBytes := 200;
                           Validate.Checksum := "" |} ]))))
     = "data/file2.json".
Proof.
  split; [vm_compute; split; discriminate|].
  rewrite (SegmentFileIterator_Ref_after_exhaustion
             "mydata" {| Iterator.ID := "snap-1" |}
             (Some [ {| Validate.Path := "data/file1.json";
                        Validate.SizeBytes := 100; Validate.Checksum := "" |};
                     {| Validate.Path := "data/file2.json";
                        Validate.SizeBytes := 200; Validate.Checksum := "" |} ])
             5%N).
  - reflexivity.
  - vm_compute. split; discriminate.
Defined.

Section Release.
Import Go Errors Iterator.

Lemma SegmentFile_released_step (s : SegmentFileIterator.t) (c : call) :
  SegmentFileIterator.closed s = true /\ SegmentFileIterator.files s = None ->
  SegmentFileIterator.closed (fst (step s c)) = true
  /\ SegmentFileIterator.files (fst (step s c)) = None.
Proof.
  intros [Hc Hf]. destruct c; cbn [step Next Close fst
                                   SegmentFileIterator_ObjectIterator].
  - unfold SegmentFileIterator.Next. rewrite Hc. cbn [fst]. split; assumption.
  - split; assumption.
  - split; assumption.
  - split; reflexivity.
Qed.

Lemma Listing_released_step (s : ListingIterator.t) (c : call) :
  ListingIterator.closed s = true /\ ListingIterator.keys s = None ->
  ListingIterator.closed (fst (step s c)) = true
  /\ ListingIterator.keys (fst (step s c)) = None.
Proof.
  intros [Hc Hf]. destruct c; cbn [step Next Close fst
                                   ListingIterator_ObjectIterator].
  - unfold ListingIterator.Next. rewrite Hc. cbn [fst]. split; assumption.
  - split; assumption.
  - split; assumption.
  - split; reflexivity.
Qed.

End Release.

(** X8: [Close] releases the slice for good: after a [Close], whatever was
    called before and whatever is called afterwards, a [SegmentFileIterator]
    holds no files and a [ListingIterator] no keys (the slice is nil), and
    the iterator stays closed. *)
Theorem Close_releases_the_slice :
  (forall (dataset : string) (segment : Iterator.SegmentRef)
          (files : Go.slice Validate.FileRef) (pre post : list Iterator.call),
      let it := Iterator.after
                  (Iterator.SegmentFileIterator.New dataset segment files)
                  (pre ++ Iterator.CallClose :: post) in
      Iterator.SegmentFileIterator.closed it = true
      /\ Iterator.SegmentFileIterator.files it = None)
  /\ (forall (dataset : string) (segment : Iterator.SegmentRef)
             (keys : Go.slice Iterator.ObjectKey) (pre post : list Iterator.call),
         let it := Iterator.after
                     (Iterator.ListingIterator.New dataset segment keys)
                     (pre ++ Iterator.CallClose :: post) in
         Iterator.ListingIterator.closed it = true
         /\ Iterator.ListingIterator.keys it = None).
Proof.
  split; intros; subst it; rewrite after_app; cbn [Iterator.after].
  - apply (after_keeps
             (fun s => Iterator.SegmentFileIterator.closed s = true
                       /\ Iterator.SegmentFileIterator.files s = None)).
    + apply SegmentFile_released_step.
    + split; reflexivity.
  - apply (after_keeps
             (fun s => Iterator.ListingIterator.closed s = true
                       /\ Iterator.ListingIterator.keys s = None)).
    + apply Listing_released_step.
    + split; reflexivity.
Qed.

(** ** StoreAdapter: delegation, Stat, the page of a listing *)

Lemma NewStoreAdapter_fields (st : Store.t) :
  Adapter.store (Adapter.NewStoreAdapter st) = st
  /\ Adapter.rangeReadStore (Adapter.NewStoreAdapter st)
     = Store.asRangeReadStore st.
Proof.
  unfold Adapter.NewStoreAdapter.
  destruct (Store.asRangeReadStore st); split; reflexivity.
Qed.

(** X9: on a store that has the methods of [RangeReadStore], the adapter
    supports range reads and hands [ReadRange], [ReaderAt] and [Stat] to the
    store: each makes the one matching call, none calls [Get], the results of
    [ReadRange] and [ReaderAt] are the store's, and [Stat] reports the
    store's size under the key asked for, or the store's error. *)
Theorem StoreAdapter_delegates_to_range_store
        (st : Store.t) (rrs : Store.RangeReadStore) :
  Store.asRangeReadStore st = Some rrs ->
  Adapter.SupportsRangeReads (Adapter.NewStoreAdapter st) = true
  /\ (forall (key : Adapter.ObjectKey) (offset length : Z),
         Adapter.ReadRange (Adapter.NewStoreAdapter st) key offset length
         = (Store.ReadRange rrs key offset length,
            [Store.CalledReadRange key offset length]))
  /\ (forall key : Adapter.ObjectKey,
         Adapter.ReaderAt (Adapter.NewStoreAdapter st) key
         = (Store.ReaderAt rrs key, [Store.CalledReaderAt key]))
  /\ (forall key : Adapter.ObjectKey,
         Adapter.Stat (Adapter.NewStoreAdapter st) key
         = (match snd (Store.Stat rrs key) with
            | Some e => Go.Returns (Adapter.zeroInfo, Some e)
            | None =>
                Go.Returns ({| Adapter.Key := key;
                               Adapter.SizeBytes := fst (Store.Stat rrs key) |},
                            None)
            end, [Adapter.StatCalled key])).
Proof.
  intros Hrrs. destruct (NewStoreAdapter_fields st) as [_ Hrange].
  unfold Adapter.SupportsRangeReads, Adapter.ReadRange, Adapter.ReaderAt,
    Adapter.Stat.
  rewrite Hrange, Hrrs. repeat split.
  intros key. destruct (Store.Stat rrs key) as [size [e|]]; reflexivity.
Qed.

Lemma StoreAdapter_delegates_to_range_store_witness :
  Adapter.Stat
    (Adapter.NewStoreAdapter
       {| Store.Put := fun _ _ => None;
          Store.Get := fun _ => (None, Some Errors.ErrNotFound);
          Store.Exists := fun _ => (true, None);
          Store.List := fun _ => (None, None);
          Store.Delete := fun _ => None;
          Store.asRangeReadStore :=
            Some {| Store.Stat := fun _ => (42%Z, None);
                    Store.ReadRange := fun _ _ _ => (Some [], None);
                    Store.ReaderAt :=
                      fun _ => (Some {| Store.bytes := [];
                                        Store.failure := None |}, None) |} |})
    "obj"
  = (Go.Returns ({| Adapter.Key := "obj"; Adapter.SizeBytes := 42 |}, None),
     [Adapter.StatCalled "obj"]).
Proof.
  apply (StoreAdapter_delegates_to_range_store
           {| Store.Put := fun _ _ => None;
              Store.Get := fun _ => (None, Some Errors.ErrNotFound);
              Store.Exists := fun _ => (true, None);
              Store.List := fun _ => (None, None);
              Store.Delete := fun _ => None;
              Store.asRangeReadStore :=
                Some {| Store.Stat := fun _ => (42%Z, None);
                        Store.ReadRange := fun _ _ _ => (Some [], None);
                        Store.ReaderAt :=
                      fun _ => (Some {| Store.bytes := [];
                                        Store.failure := None |}, None) |} |}
           {| Store.Stat := fun _ => (42%Z, None);
              Store.ReadRange := fun _ _ _ => (Some [], None);
              Store.ReaderAt :=
                      fun _ => (Some {| Store.bytes := [];
                                        Store.failure := None |}, None) |}).
  reflexivity.
Defined.

(** X10: on a store without range reads, [Stat] downloads the object: it
    makes one call of [Get]; an error of [Get] is returned with the zero
    [ObjectInfo], and so is an error met while reading the object; otherwise
    the size reported is the number of bytes the reader yields, under the key
    asked for; a nil reader returned without an error ends in a panic. *)
Theorem StoreAdapter_Stat_falls_back_to_Get
        (st : Store.t) (key : Adapter.ObjectKey) :
  Store.asRangeReadStore st = None ->
  Adapter.Stat (Adapter.NewStoreAdapter st) key
  = (match Store.Get st key with
     | (_, Some e) => Go.Returns (Adapter.zeroInfo, Some e)
     | (Some rc, None) =>
         match Store.failure rc with
         | Some e => Go.Returns (Adapter.zeroInfo, Some e)
         | None =>
             Go.Returns
               ({| Adapter.Key := key;
                   Adapter.SizeBytes := Z.of_nat (List.length (Store.bytes rc)) |},
                None)
         end
     | (None, None) => Go.Panics
     end, [Adapter.GetCalled key]).
Proof.
  intros Hnone. destruct (NewStoreAdapter_fields st) as [Hstore Hrange].
  unfold Adapter.Stat, Adapter.ReadAll. rewrite Hrange, Hnone, Hstore.
  destruct (Store.Get st key) as [[rc|] [e|]]; reflexivity.
Qed.

Lemma StoreAdapter_Stat_falls_back_to_Get_witness :
  Adapter.Stat (Adapter.NewStoreAdapter (Store.trackingStore None)) "obj"
  = (Go.Returns (Adapter.zeroInfo, Some Errors.ErrNotFound),
     [Adapter.GetCalled "obj"])
  /\ Adapter.Stat (Adapter.NewStoreAdapter Store.mockStore) "obj"
     = (Go.Panics, [Adapter.GetCalled "obj"])
  /\ Adapter.Stat
       (Adapter.NewStoreAdapter
          {| Store.Put := fun _ _ => None;
             Store.Get :=
               fun _ => (Some {| Store.bytes := [Byte.x61; Byte.x62];
                                 Store.failure :=
                                   Some (Errors.StoreError "read") |}, None);
             Store.Exists := fun _ => (true, None);
             Store.List := fun _ => (None, None);
             Store.Delete := fun _ => None;
             Store.asRangeReadStore := None |}) "obj"
     = (Go.Returns (Adapter.zeroInfo, Some (Errors.StoreError "read")),
        [Adapter.GetCalled "obj"])
  /\ Adapter.Stat
       (Adapter.NewStoreAdapter
          {| Store.Put := fun _ _ => None;
             Store.Get :=
               fun _ => (Some {| Store.bytes := [Byte.x61; Byte.x62];
                                 Store.failure := None |}, None);
             Store.Exists := fun _ => (true, None);
             Store.List := fun _ => (None, None);
             Store.Delete := fun _ => None;
             Store.asRangeReadStore := None |}) "obj"
     = (Go.Returns ({| Adapter.Key := "obj"; Adapter.SizeBytes := 2 |}, None),
        [Adapter.GetCalled "obj"]).
Proof.
  split; [|split; [|split]].
  - apply (StoreAdapter_Stat_falls_back_to_Get (Store.trackingStore None) "obj").
    reflexivity.
  - apply (StoreAdapter_Stat_falls_back_to_Get Store.mockStore "obj").
    reflexivity.
  - apply (StoreAdapter_Stat_falls_back_to_Get
             {| Store.Put := fun _ _ => None;
                Store.Get :=
                  fun _ => (Some {| Store.bytes := [Byte.x61; Byte.x62];
                                    Store.failure :=
                                      Some (Errors.StoreError "read") |}, None);
                Store.Exists := fun _ => (true, None);
                Store.List := fun _ => (None, None);
                Store.Delete := fun _ => None;
                Store.asRangeReadStore := None |} "obj").
    reflexivity.
  - apply (StoreAdapter_Stat_falls_back_to_Get
             {| Store.Put := fun _ _ => None;
                Store.Get :=
                  fun _ => (Some {| Store.bytes := [Byte.x61; Byte.x62];
                                    Store.failure := None |}, None);
                Store.Exists := fun _ => (true, None);
                Store.List := fun _ => (None, None);
                Store.Delete := fun _ => None;
                Store.asRangeReadStore := None |} "obj").
    reflexivity.
Defined.

(** X11: the page [StoreAdapter.List] returns.  It makes one call of the
    store's [List].  An error of the store is returned with the zero page.
    Otherwise there is no error, the keys are an initial segment of the
    store's listing, and [HasMore] is set exactly when keys were left out,
    in which case the page holds [Limit] keys. *)
Theorem StoreAdapter_List_page
        (st : Store.t) (prefix : Adapter.ObjectKey) (opts : Adapter.ListOptions) :
  let result := Adapter.List (Adapter.NewStoreAdapter st) prefix opts in
  let page := fst (fst result) in
  let paths := Go.elems (fst (Store.List st prefix)) in
  snd result = [Store.CalledList prefix]
  /\ match snd (Store.List st prefix) with
     | Some e => fst result = (Adapter.zeroPage, Some e)
     | None =>
         snd (fst result) = None
         /\ Go.elems (Adapter.Keys page)
            = firstn (List.length (Go.elems (Adapter.Keys page))) paths
         /\ (Adapter.HasMore page = true
             <-> (List.length (Go.elems (Adapter.Keys page))
                  < List.length paths)%nat)
         /\ (if Adapter.HasMore page
             then Go.len (Adapter.Keys page) = Adapter.Limit opts
             else Go.elems (Adapter.Keys page) = paths)
     end.
Proof.
  cbv zeta. destruct (NewStoreAdapter_fields st) as [Hstore _].
  unfold Adapter.List. rewrite Hstore.
  destruct (Store.List st prefix) as [paths [e|]]; cbn [fst snd];
    [split; reflexivity|].
  split; [reflexivity|].
  change (Go.len (Some (Go.elems paths))) with (Go.len paths).
  unfold Go.len, Adapter.ObjectKey in *.
  destruct ((Adapter.Limit opts >? 0)%Z
            && (Z.of_nat (List.length (Go.elems paths)) >? Adapter.Limit opts)%Z)
    eqn:Hcond; cbn [fst snd Adapter.Keys Adapter.HasMore Go.elems].
  - apply andb_true_iff in Hcond as [Hpos Hmore].
    apply Z.gtb_lt in Hpos, Hmore.
    assert (Hle : (Z.to_nat (Adapter.Limit opts)
                   <= List.length (Go.elems paths))%nat) by lia.
    rewrite (firstn_length_le _ Hle).
    repeat split; try reflexivity; intros; lia.
  - rewrite firstn_all. repeat split; try reflexivity.
    + discriminate.
    + intros H. lia.
Qed.

(** ** ValidateManifest: optional fields, the file an error names *)

Section ManifestFiles.
Import Go Errors Validate.

Lemma validateFiles_map (g : FileRef -> FileRef) (files : list FileRef) (i : Z) :
  (forall f, Path (g f) = Path f /\ SizeBytes (g f) = SizeBytes f) ->
  validateFiles (map g files) i = validateFiles files i.
Proof.
  intros Hg. revert i. induction files as [|f rest IH]; intros i; [reflexivity|].
  cbn [map validateFiles]. destruct (Hg f) as [-> ->]. rewrite IH. reflexivity.
Qed.

Lemma validateFiles_app (good more : list FileRef) (i : Z) :
  validateFiles (good ++ more) i
  = match validateFiles good i with
    | Some e => Some e
    | None => validateFiles more (i + Z.of_nat (List.length good))
    end.
Proof.
  revert i. induction good as [|f good IH]; intros i.
  - cbn [app validateFiles List.length]. rewrite Z.add_0_r. reflexivity.
  - cbn [app validateFiles]. destruct (Path f =? "")%string; [reflexivity|].
    destruct (SizeBytes f <? 0)%Z; [reflexivity|].
    rewrite IH. cbn [List.length]. rewrite Nat2Z.inj_succ.
    replace (i + 1 + Z.of_nat (List.length good))%Z
      with (i + Z.succ (Z.of_nat (List.length good)))%Z by lia.
    reflexivity.
Qed.

(** The files are validated after everything else. *)
Lemma ValidateManifest_setFiles (m : Manifest) (files : list FileRef) :
  ValidateManifest (Some (setFiles m (Some files)))
  = match ValidateManifest (Some (setFiles m (Some []))) with
    | Some e => Some e
    | None => validateFiles files 0
    end.
Proof.
  unfold ValidateManifest, setFiles.
  cbn [SchemaName FormatVersion DatasetID SnapshotID CreatedAt Metadata Files
       RowCount Codec Compressor Partitioner validateFiles].
  repeat match goal with
         | |- context [if ?c then invalid _ _ else _] => destruct c; [reflexivity|]
         | |- context [match Metadata m with Some _ => _ | None => _ end] =>
             destruct (Metadata m); [|reflexivity]
         end.
  reflexivity.
Qed.

End ManifestFiles.

(** X12: the optional fields play no part in validation: setting the parent
    snapshot, the two timestamps and the checksum of every file to anything
    leaves the result of [ValidateManifest] as it was. *)
Theorem ValidateManifest_ignores_optional_fields
        (m : Validate.Manifest) (parent : string)
        (minTs maxTs : option Go.Time)
        (checksums : Validate.FileRef -> string) :
  Validate.ValidateManifest
    (Some (Validate.setChecksums
             (Validate.setOptional m parent minTs maxTs) checksums))
  = Validate.ValidateManifest (Some m).
Proof.
  unfold Validate.ValidateManifest, Validate.setChecksums, Validate.setFiles,
    Validate.setOptional.
  cbn [Validate.SchemaName Validate.FormatVersion Validate.DatasetID
       Validate.SnapshotID Validate.CreatedAt Validate.Metadata Validate.Files
       Validate.RowCount Validate.Codec Validate.Compressor
       Validate.Partitioner].
  destruct (Validate.Files m) as [files|]; [|reflexivity].
  rewrite validateFiles_map; [reflexivity|].
  intros f. split; reflexivity.
Qed.

(** X13: the error names the first file that is wrong.  When a manifest is
    valid with the files [good], then with [bad] and any further files after
    them: an empty path of [bad] gives the error on [files[i].path], and
    otherwise a negative size the error on [files[i].size_bytes], where [i]
    is the number of files in [good]; and when [bad] has neither defect, the
    manifest with [bad] appended is valid. *)
Theorem ValidateManifest_names_first_bad_file
        (m : Validate.Manifest) (good rest : list Validate.FileRef)
        (bad : Validate.FileRef) :
  Validate.ValidateManifest (Some (Validate.setFiles m (Some good))) = None ->
  let i := Go.fmt_d (Z.of_nat (List.length good)) in
  if (Validate.Path bad =? "")%string
  then Validate.ValidateManifest
         (Some (Validate.setFiles m (Some (good ++ bad :: rest)%list)))
       = Validate.invalid ("files[" ++ i ++ "].path") "is required"
  else if (Validate.SizeBytes bad <? 0)%Z
  then Validate.ValidateManifest
         (Some (Validate.setFiles m (Some (good ++ bad :: rest)%list)))
       = Validate.invalid ("files[" ++ i ++ "].size_bytes")
                          "must be non-negative"
  else Validate.ValidateManifest
         (Some (Validate.setFiles m (Some (good ++ [bad])%list)))
       = None.
Proof.
  intros Hgood. cbv zeta.
  rewrite ValidateManifest_setFiles in Hgood.
  rewrite !(ValidateManifest_setFiles m (good ++ _)).
  destruct (Validate.ValidateManifest (Some (Validate.setFiles m (Some []))));
    [discriminate|].
  rewrite !validateFiles_app, Hgood. cbn [Validate.validateFiles Z.add].
  destruct (Validate.Path bad =? "")%string; [reflexivity|].
  destruct (Validate.SizeBytes bad <? 0)%Z; reflexivity.
Qed.

Lemma ValidateManifest_names_first_bad_file_witness :
  Validate.ValidateManifest
    (Some (Validate.setFiles Validate.validManifest
             (Some [ {| Validate.Path := "data/file1.json";
                        Validate.SizeBytes := 100; Validate.Checksum := "" |};
                     {| Validate.Path := "data/file2.json";
                        Validate.SizeBytes := (-1);
                        Validate.Checksum := "" |} ])))
  = Validate.invalid "files[1].size_bytes" "must be non-negative".
Proof.
  apply (ValidateManifest_names_first_bad_file
           Validate.validManifest
           [ {| Validate.Path := "data/file1.json";
                Validate.SizeBytes := 100; Validate.Checksum := "" |} ]
           []
           {| Validate.Path := "data/file2.json";
              Validate.SizeBytes := (-1); Validate.Checksum := "" |}).
  reflexivity.
Defined.

(** ** The custom layout of the tests *)

Section CustomLayoutFacts.
Import Go CustomLayout.

Lemma nonEmptyParts_all (pieces acc : list string) :
  Forall (fun e => e <> "") pieces ->
  nonEmptyParts pieces (Some acc) = Some (acc ++ pieces)%list.
Proof.
  intros H. revert acc. induction H as [|e rest He _ IH]; intros acc.
  - cbn [nonEmptyParts]. rewrite app_nil_r. reflexivity.
  - cbn [nonEmptyParts elems]. apply String.eqb_neq in He. rewrite He.
    cbn [negb]. rewrite IH, <- app_assoc. reflexivity.
Qed.

Lemma nonEmptyParts_kept (pieces : list string) (parts : slice string) :
  Forall (fun e => e <> "") (elems parts) ->
  Forall (fun e => e <> "") (elems (nonEmptyParts pieces parts)).
Proof.
  revert parts. induction pieces as [|e rest IH]; intros parts H; [exact H|].
  cbn [nonEmptyParts]. destruct (String.eqb_spec e "") as [->|He]; cbn [negb].
  - apply IH, H.
  - apply IH. cbn [elems]. apply Forall_app. split; [exact H|].
    repeat constructor. exact He.
Qed.

(** No part [splitPath] returns is empty. *)
Lemma splitPath_parts_not_empty (p : string) :
  Forall (fun e => e <> "") (elems (splitPath p)).
Proof.
  unfold splitPath. destruct (p =? "")%string; [constructor|].
  apply nonEmptyParts_kept. constructor.
Qed.

Lemma splitPath_canonical (d s : string) :
  d <> "" -> s <> "" ->
  GoStrings.ContainsByte d "/" = false ->
  GoStrings.ContainsByte s "/" = false ->
  splitPath ("custom/" ++ d ++ "/segs/" ++ s ++ "/meta.json")
  = Some ["custom"; d; "segs"; s; "meta.json"].
Proof.
  intros Hd Hs Hds Hss. unfold splitPath.
  change ("custom/" ++ d ++ "/segs/" ++ s ++ "/meta.json")
    with (GoStrings.Join ["custom"; d; "segs"; s; "meta.json"] "/").
  destruct (Join_head "c" "ustom" [d; "segs"; s; "meta.json"] "/")
    as [tail Htail].
  rewrite Htail at 1. cbn [String.eqb]. change GoPath.slash with "/"%char.
  rewrite Split_Join;
    [|discriminate|repeat constructor; solve [assumption|reflexivity]].
  cbn [nonEmptyParts elems app].
  apply String.eqb_neq in Hd, Hs. rewrite Hd, Hs. reflexivity.
Qed.

End CustomLayoutFacts.

(** X14: the custom layout of the tests round-trips every non-empty,
    slash-free pair of IDs, the IDs [.] and [..] included, since it builds
    the path by concatenation: the path [ManifestPath] returns is accepted by
    [IsManifest], the parsers give the two IDs back, and the path is recorded
    as the last request. *)
Theorem customLayout_round_trip
        (c : CustomLayout.customLayout) (d s : string) :
  (d =? "")%string = false -> (s =? "")%string = false ->
  GoStrings.ContainsByte d "/" = false ->
  GoStrings.ContainsByte s "/" = false ->
  let path := fst (CustomLayout.ManifestPath c d s) in
  let c' := snd (CustomLayout.ManifestPath c d s) in
  path = "custom/" ++ d ++ "/segs/" ++ s ++ "/meta.json"
  /\ CustomLayout.IsManifest c' path = true
  /\ CustomLayout.ParseDatasetID c' path = d
  /\ CustomLayout.ParseSegmentID c' path = s
  /\ CustomLayout.getManifestReq c'
     = Some (Go.elems (CustomLayout.getManifestReq c) ++ [path])%list.
Proof.
  intros Hd Hs Hds Hss. apply String.eqb_neq in Hd, Hs.
  cbv zeta. unfold CustomLayout.ManifestPath. cbn [fst snd].
  unfold CustomLayout.IsManifest, CustomLayout.ParseDatasetID,
    CustomLayout.ParseSegmentID.
  rewrite (splitPath_canonical d s Hd Hs Hds Hss).
  repeat split.
Qed.

Lemma customLayout_round_trip_witness :
  CustomLayout.ParseDatasetID
    (snd (CustomLayout.ManifestPath
            {| CustomLayout.datasetsPrefix := "custom/";
               CustomLayout.listCalls := None;
               CustomLayout.getManifestReq := None |} ".." "seg-1"))
    (fst (CustomLayout.ManifestPath
            {| CustomLayout.datasetsPrefix := "custom/";
               CustomLayout.listCalls := None;
               CustomLayout.getManifestReq := None |} ".." "seg-1"))
  = "..".
Proof.
  apply (customLayout_round_trip
           {| CustomLayout.datasetsPrefix := "custom/";
              CustomLayout.listCalls := None;
              CustomLayout.getManifestReq := None |} ".." "seg-1");
    reflexivity.
Defined.

(** X15: in the custom layout too the parsers agree with [IsManifest]: on a
    path it accepts both return a non-empty ID, on every other path the empty
    string. *)
Theorem customLayout_parsers_agree_with_IsManifest
        (c : CustomLayout.customLayout) (p : string) :
  if CustomLayout.IsManifest c p
  then CustomLayout.ParseDatasetID c p <> ""
       /\ CustomLayout.ParseSegmentID c p <> ""
  else CustomLayout.ParseDatasetID c p = ""
       /\ CustomLayout.ParseSegmentID c p = "".
Proof.
  unfold CustomLayout.IsManifest, CustomLayout.ParseDatasetID,
    CustomLayout.ParseSegmentID.
  pose proof (splitPath_parts_not_empty p) as Hparts.
  cbv zeta. unfold Go.len, CustomLayout.part.
  destruct (Go.elems (CustomLayout.splitPath p))
    as [|a [|b [|x [|y [|z [|w l]]]]]];
    try (split; reflexivity).
  - cbn [List.length nth]. cbn [Z.of_nat Pos.of_succ_nat Pos.succ Z.eqb
                                Pos.eqb negb orb].
    inversion Hparts as [|? ? _ H1]; subst. inversion H1 as [|? ? Hb H2]; subst.
    inversion H2 as [|? ? _ H3]; subst. inversion H3 as [|? ? Hy _]; subst.
    destruct (a =? "custom")%string; [|split; reflexivity].
    destruct (x =? "segs")%string; [|split; reflexivity].
    destruct (z =? "meta.json")%string; [|split; reflexivity].
    split; assumption.
  - replace (Z.of_nat (List.length (a :: b :: x :: y :: z :: w :: l)) =? 5)%Z
      with false by (symmetry; apply Z.eqb_neq; cbn [List.length]; lia).
    split; reflexivity.
Qed.
